(** * Bulk import of the Healthy Basket dataset: a shallow embedding of
      [import_to_elastic.py] and the properties of its pipeline.

    The Python module encodes two record collections into the lines of the
    Elasticsearch [_bulk] protocol ([make_bulk_lines]), groups the lines into
    batches ([chunked]), posts every batch ([send_bulk]) and prints a summary
    ([import_documents]).

    Modelling conventions.
    - Python objects are the inductive [value]: the JSON types, plus [bytes]
      as the representative of objects [json.dumps] rejects.
    - [str] is [string], read as the bytes of the text in UTF-8, a lone
      surrogate being written as the three bytes its code point takes in
      that scheme ([ED A0..BF xx]). [data.encode("utf-8")] raises on a text
      with a lone surrogate and is the identity on every other text.
    - [int] is [Z].
    - A [dict] is an association list in insertion order, which is the order
      [json.dumps] writes the keys in.
    - Exceptions are the type [exn]; code that can raise returns [result].
    - The requests sent and the lines printed are an explicit [world],
      threaded through the monad [M]; what [requests.post] does with a
      request and which texts the standard output can encode is given by a
      [network]. *)

From Stdlib Require Import ZArith List String Ascii Bool Lia PeanoNat.
From Stdlib Require Import DecimalString QArith Qround.
Import ListNotations.

Local Close Scope Q_scope.
Local Open Scope string_scope.
Local Open Scope list_scope.
Local Open Scope nat_scope.

(** ** Python values *)

#[local] Set Warnings "-register-all".

Inductive value : Type :=
| VNone
| VBool (b : bool)
| VInt (n : Z)
| VFloat (repr : string)      (* a float, by the text [json.dumps] writes *)
| VStr (s : string)
| VList (items : list value)
| VDict (entries : list (string * value))
| VBytes (b : string).        (* not JSON: [json.dumps] raises [TypeError] *)

Definition pydict : Type := list (string * value).

(** ** Exceptions *)

Inductive request_exception : Type :=
| ConnectionError
| Timeout
| TooManyRedirects
| InvalidURL                    (* also [MissingSchema], [InvalidHeader] *)
| JSONDecodeError.

Inductive exn : Type :=
| TypeError
| AttributeError
| RequestException (e : request_exception)
| SystemExit (msg : string)
| UnicodeEncodeError
| ValueError
| OSError.

Inductive result (A : Type) : Type :=
| Ok (a : A)
| Raise (e : exn).

Arguments Ok {A} a.
Arguments Raise {A} e.

Definition rbind {A B : Type} (r : result A) (k : A -> result B) : result B :=
  match r with
  | Ok a => k a
  | Raise e => Raise e
  end.

Declare Scope result_scope.
Delimit Scope result_scope with result.
Notation "x <- r ;; k" := (rbind r (fun x => k))
  (at level 61, r at next level, right associativity) : result_scope.

(** [mapM f l] runs [f] over [l] from left to right and stops at the first
    exception. *)
Definition mapM {A B : Type} (f : A -> result B) : list A -> result (list B) :=
  fix go (l : list A) : result (list B) :=
    match l with
    | [] => Ok []
    | x :: rest => (y <- f x ;; ys <- go rest ;; Ok (y :: ys))%result
    end.

(** ** Characters and text *)

Definition dquote : string := String (ascii_of_nat 34) EmptyString.
Definition backslash : string := String (ascii_of_nat 92) EmptyString.
Definition LF : string := String (ascii_of_nat 10) EmptyString.

Definition quoted (s : string) : string := dquote ++ s ++ dquote.

Definition str_of_Z (n : Z) : string := NilZero.string_of_int (Z.to_int n).

Definition hex_digit (n : nat) : string :=
  match n with
  | 0 => "0" | 1 => "1" | 2 => "2" | 3 => "3" | 4 => "4" | 5 => "5"
  | 6 => "6" | 7 => "7" | 8 => "8" | 9 => "9" | 10 => "a" | 11 => "b"
  | 12 => "c" | 13 => "d" | 14 => "e" | _ => "f"
  end.

Fixpoint repeat_string (s : string) (n : nat) : string :=
  match n with
  | O => EmptyString
  | S n' => s ++ repeat_string s n'
  end.

(** Every character of the text is ASCII. *)
Fixpoint is_ascii (s : string) : bool :=
  match s with
  | EmptyString => true
  | String c rest => (nat_of_ascii c <? 128) && is_ascii rest
  end.

(** The text holds a lone surrogate, a code point of U+D800..U+DFFF: the
    byte [ED] followed by a byte of [A0..BF]. *)
Definition surrogate_tail (s : string) : bool :=
  match s with
  | EmptyString => false
  | String d _ => (160 <=? nat_of_ascii d) && (nat_of_ascii d <=? 191)
  end.

Fixpoint has_surrogate (s : string) : bool :=
  match s with
  | EmptyString => false
  | String c rest =>
      (Nat.eqb (nat_of_ascii c) 237 && surrogate_tail rest)
      || has_surrogate rest
  end.

(** [str.rstrip('/')]: every trailing slash is removed. *)
Fixpoint rstrip_slash (s : string) : string :=
  match s with
  | EmptyString => EmptyString
  | String c rest =>
      match rstrip_slash rest with
      | EmptyString => if Ascii.eqb c "/"%char then EmptyString
                       else String c EmptyString
      | r => String c r
      end
  end.

(** ** Truth value, [dict.get], iteration *)

Definition truthy (v : value) : bool :=
  match v with
  | VNone => false
  | VBool b => b
  | VInt n => negb (n =? 0)%Z
  | VFloat r => negb (String.eqb r "0.0" || String.eqb r "-0.0")
  | VStr s => negb (String.eqb s EmptyString)
  | VList l => match l with [] => false | _ => true end
  | VDict d => match d with [] => false | _ => true end
  | VBytes b => negb (String.eqb b EmptyString)
  end.

Fixpoint lookup (k : string) (d : pydict) : option value :=
  match d with
  | [] => None
  | (k', v) :: rest => if String.eqb k k' then Some v else lookup k rest
  end.

(** [d[k] = v] on a dict: an existing key keeps its place. *)
Fixpoint dict_set (d : pydict) (k : string) (v : value) : pydict :=
  match d with
  | [] => [(k, v)]
  | (k', v') :: rest =>
      if String.eqb k k' then (k', v) :: rest
      else (k', v') :: dict_set rest k v
  end.

(** [obj.get(k, default)]: only a dict has the method. *)
Definition py_get (obj : value) (k : string) (default : value) : result value :=
  match obj with
  | VDict d => Ok (match lookup k d with Some v => v | None => default end)
  | _ => Raise AttributeError
  end.

Definition chars_of (s : string) : list value :=
  map (fun c => VStr (String c EmptyString)) (list_ascii_of_string s).

Definition ints_of (s : string) : list value :=
  map (fun c => VInt (Z.of_nat (nat_of_ascii c))) (list_ascii_of_string s).

(** What [for x in obj] (and [list.extend(obj)]) runs over. *)
Definition py_iter (obj : value) : result (list value) :=
  match obj with
  | VList l => Ok l
  | VDict d => Ok (map (fun kv => VStr (fst kv)) d)
  | VStr s => Ok (chars_of s)
  | VBytes b => Ok (ints_of b)
  | VNone | VBool _ | VInt _ | VFloat _ => Raise TypeError
  end.

(** ** [json.dumps(obj, ensure_ascii=False)] and its [indent=...] variant

    [escape_char] is [py_encode_basestring]: the quote, the backslash and the
    control characters below U+0020 are escaped, everything else is copied. *)

Definition escape_char (c : ascii) : string :=
  let n := nat_of_ascii c in
  if Nat.eqb n 34 then backslash ++ dquote
  else if Nat.eqb n 92 then backslash ++ backslash
  else if Nat.eqb n 8 then backslash ++ "b"
  else if Nat.eqb n 12 then backslash ++ "f"
  else if Nat.eqb n 10 then backslash ++ "n"
  else if Nat.eqb n 13 then backslash ++ "r"
  else if Nat.eqb n 9 then backslash ++ "t"
  else if Nat.ltb n 32 then
    backslash ++ "u00" ++ hex_digit (n / 16) ++ hex_digit (n mod 16)
  else String c EmptyString.

Fixpoint escape (s : string) : string :=
  match s with
  | EmptyString => EmptyString
  | String c rest => escape_char c ++ escape rest
  end.

Definition encode_str (s : string) : string := quoted (escape s).

(** With [indent=None] the item separator is [", "] and nothing is broken
    into lines; with [indent=n] the item separator is [","] and every item
    starts on a line of its own, [n] spaces deeper per nesting level. *)
Definition newline_indent (indent : option nat) (level : nat) : string :=
  match indent with
  | None => EmptyString
  | Some n => LF ++ repeat_string " " (n * level)
  end.

Definition item_separator (indent : option nat) (level : nat) : string :=
  match indent with
  | None => ", "
  | Some _ => "," ++ newline_indent indent level
  end.

Fixpoint encode (indent : option nat) (level : nat) (v : value)
  : result string :=
  match v with
  | VNone => Ok "null"
  | VBool true => Ok "true"
  | VBool false => Ok "false"
  | VInt n => Ok (str_of_Z n)
  | VFloat r => Ok r
  | VStr s => Ok (encode_str s)
  | VList [] => Ok "[]"
  | VList l =>
      (parts <- mapM (encode indent (S level)) l ;;
       Ok ("[" ++ newline_indent indent (S level)
               ++ String.concat (item_separator indent (S level)) parts
               ++ newline_indent indent level ++ "]")%string)%result
  | VDict [] => Ok "{}"
  | VDict d =>
      (parts <- mapM (fun '(k, x) =>
                        s <- encode indent (S level) x ;;
                        Ok (encode_str k ++ ": " ++ s)%string) d ;;
       Ok ("{" ++ newline_indent indent (S level)
               ++ String.concat (item_separator indent (S level)) parts
               ++ newline_indent indent level ++ "}")%string)%result
  | VBytes _ => Raise TypeError
  end.

Definition json_dumps (obj : value) : result string := encode None 0 obj.

Definition json_dumps_indent (obj : value) (indent : nat) : result string :=
  encode (Some indent) 0 obj.

(** ** Line Encoder: [make_bulk_lines]

    [bulk_lines] is the body of the generator's [for doc in actions] loop,
    run to exhaustion as [list(...)] does: an exception raised while a
    record is encoded discards the lines collected so far. *)

Fixpoint bulk_lines (docs : list value) (index_name : string)
  : result (list string) :=
  match docs with
  | [] => Ok []
  | doc :: rest =>
      (product_id <- py_get doc "product_id" VNone ;;
       doc_id <- (if truthy product_id then Ok product_id
                  else py_get doc "promotion_id" VNone) ;;
       let index := [("_index", VStr index_name)] in
       let meta :=
         [("index",
           VDict (if truthy doc_id then dict_set index "_id" doc_id
                  else index))] in
       action_line <- json_dumps (VDict meta) ;;
       body_line <- json_dumps doc ;;
       lines <- bulk_lines rest index_name ;;
       Ok (action_line :: body_line :: lines))%result
  end.

Definition make_bulk_lines (actions : value) (index_name : string)
  : result (list string) :=
  (docs <- py_iter actions ;; bulk_lines docs index_name)%result.

(** ** Batcher: [chunked]

    [chunked_loop size chunk lines] is the loop with [chunk] the lines
    appended since the last [yield]; the result lists the batches in the
    order they are yielded. *)

Fixpoint chunked_loop (size : Z) (chunk : list string) (lines : list string)
  : list (list string) :=
  match lines with
  | [] => match chunk with [] => [] | _ => [chunk] end
  | line :: rest =>
      let chunk' := chunk ++ [line] in
      if (Z.of_nat (List.length chunk') >=? size * 2)%Z
      then chunk' :: chunked_loop size [] rest
      else chunked_loop size chunk' rest
  end.

Definition chunked (iterable : list string) (size : Z) : list (list string) :=
  chunked_loop size [] iterable.

(** ** The world: requests posted and lines printed *)

Record request : Type := mk_request {
  req_url : string;
  req_headers : list (string * string);
  req_data : string;
  req_timeout : Z
}.

Record response : Type := mk_response {
  status_code : Z;
  reason : string;
  url : string;
  text : string;                (* the raw body *)
  json : option value           (* the decoded body, when it is JSON *)
}.

(** What [requests.post] does with a request it sends: raise an exception
    of [requests], or return a response. *)
Inductive post_outcome : Type :=
| PostRaises (e : request_exception)
| PostReturns (r : response).

(** What the run meets outside the process, knowing the requests sent
    before.
    - [answer]: the outcome of a request that is sent; a network is applied
      to a history and a request as this function.
    - [refuses]: the exception, if any, with which [requests.post] gives
      up before the request goes out, for a cause other than the timeout:
      the URL has no scheme or no host ([MissingSchema], [InvalidURL]), a
      header is not valid ([InvalidHeader]), the CA bundle is not found
      ([OSError]). [send_bulk] consults it before the timeout, as
      [requests] looks at the timeout once the request is prepared.
    - [displays]: the encoding of the standard output can encode the text.
      ASCII text is encoded by every encoding Python gives the standard
      output, whatever [displays] says. *)
Record network : Type := mk_network {
  answer :> list request -> request -> post_outcome;
  refuses : list request -> request -> option exn;
  displays : string -> bool
}.

Record world : Type := mk_world {
  posted : list request;        (* the requests sent, oldest first *)
  stdout : list string          (* the lines printed, oldest first *)
}.

Definition M (A : Type) : Type := world -> result A * world.

Definition ret {A : Type} (a : A) : M A := fun w => (Ok a, w).

Definition bind {A B : Type} (m : M A) (k : A -> M B) : M B :=
  fun w =>
    match m w with
    | (Ok a, w') => k a w'
    | (Raise e, w') => (Raise e, w')
    end.

Definition lift {A : Type} (r : result A) : M A := fun w => (r, w).

(** The standard output can encode the text. *)
Definition printable (net : network) (line : string) : bool :=
  is_ascii line || displays net line.

(** [print(line)] with the standard output open: the text is encoded first,
    and nothing of it is written when that raises [UnicodeEncodeError]. *)
Definition print (net : network) (line : string) : M unit :=
  fun w =>
    if printable net line
    then (Ok tt, mk_world (posted w) (stdout w ++ [line]))
    else (Raise UnicodeEncodeError, w).

Declare Scope io_scope.
Delimit Scope io_scope with io.
Notation "x <- m ;; k" := (bind m (fun x => k))
  (at level 61, m at next level, right associativity) : io_scope.
Notation "' p <- m ;; k" := (bind m (fun x => let p := x in k))
  (at level 61, p pattern, m at next level, right associativity) : io_scope.
Notation "m ;; k" := (bind m (fun _ => k))
  (at level 61, right associativity) : io_scope.

(** ** Transport: [send_bulk]

    [raise_for_status] is the one of [requests]: an [HTTPError] for a status
    in 400..599 and nothing otherwise; the result is the error's text.

    The arguments of [requests.post] are evaluated before the call, so a
    text [data.encode("utf-8")] rejects raises before any request. The call
    itself raises [ValueError] for a timeout of zero or less, once the
    request is prepared and before it is sent. *)

Definition raise_for_status (r : response) : option string :=
  if ((400 <=? status_code r) && (status_code r <? 500))%Z then
    Some (str_of_Z (status_code r) ++ " Client Error: " ++ reason r
            ++ " for url: " ++ url r)%string
  else if ((500 <=? status_code r) && (status_code r <? 600))%Z then
    Some (str_of_Z (status_code r) ++ " Server Error: " ++ reason r
            ++ " for url: " ++ url r)%string
  else None.

Definition bulk_request (es_url api_key : string) (lines : list string)
  (timeout : Z) : request :=
  let endpoint := (rstrip_slash es_url ++ "/_bulk")%string in
  let data := (String.concat LF lines ++ LF)%string in
  let headers :=
    [("Content-Type", "application/x-ndjson");
     ("Authorization", ("ApiKey " ++ api_key)%string)] in
  mk_request endpoint headers data timeout.

Definition send_bulk (net : network) (es_url api_key : string)
  (lines : list string) (timeout : Z) : M value :=
  fun w =>
    let req := bulk_request es_url api_key lines timeout in
    if has_surrogate (req_data req) then (Raise UnicodeEncodeError, w)
    else
      match refuses net (posted w) req with
      | Some e => (Raise e, w)
      | None =>
          if (timeout <=? 0)%Z then (Raise ValueError, w)
          else
            let w' := mk_world (posted w ++ [req]) (stdout w) in
            match net (posted w) req with
            | PostRaises e => (Raise (RequestException e), w')
            | PostReturns r =>
                match raise_for_status r with
                | Some exc =>
                    (Raise (SystemExit
                              ("Bulk request failed: " ++ exc ++ LF
                                 ++ text r)%string),
                     w')
                | None =>
                    match json r with
                    | Some decoded => (Ok decoded, w')
                    | None => (Raise (RequestException JSONDecodeError), w')
                    end
                end
            end
      end.

(** ** Result Aggregator and Orchestrator: [import_documents] *)

(** The condition of the comprehension that builds [failed]:
    [item.get("index", {}).get("error")]. *)
Definition item_failed (item : value) : result bool :=
  (outcome <- py_get item "index" (VDict []) ;;
   error <- py_get outcome "error" VNone ;;
   Ok (truthy error))%result.

Fixpoint select_failed (errors : list value) : result (list value) :=
  match errors with
  | [] => Ok []
  | item :: rest =>
      (keep <- item_failed item ;;
       failed <- select_failed rest ;;
       Ok (if keep then item :: failed else failed))%result
  end.

(** One of the two [for batch in chunked(...)] loops, which have the same
    body; the loop state is [(batches_sent, errors)]. *)
Fixpoint send_batches (net : network) (es_url api_key : string) (timeout : Z)
  (batches : list (list string)) (state : Z * list value)
  : M (Z * list value) :=
  match batches with
  | [] => ret state
  | batch :: rest =>
      (result <- send_bulk net es_url api_key batch timeout ;;
       let batches_sent := (fst state + 1)%Z in
       items <- lift (py_get result "items" (VList [])) ;;
       more <- lift (py_iter items) ;;
       send_batches net es_url api_key timeout rest
         (batches_sent, snd state ++ more))%io
  end.

Definition import_documents (net : network) (dataset : value)
  (es_url api_key products_index promotions_index : string)
  (chunk_size timeout : Z) (skip_promotions : bool) : M unit :=
  (products <- lift (py_get dataset "products" (VList [])) ;;
   promotions <- (if negb skip_promotions
                  then lift (py_get dataset "promotions" (VList []))
                  else ret (VList [])) ;;
   product_lines <- lift (make_bulk_lines products products_index) ;;
   promotion_lines <- (if truthy promotions
                       then lift (make_bulk_lines promotions promotions_index)
                       else ret []) ;;
   state <- send_batches net es_url api_key timeout
              (chunked product_lines chunk_size) (0%Z, []) ;;
   state <- send_batches net es_url api_key timeout
              (chunked promotion_lines chunk_size) state ;;
   let batches_sent := fst state in
   let errors := snd state in
   failed <- lift (select_failed errors) ;;
   print net ("Bulk import finished. Batches sent: "
            ++ str_of_Z batches_sent ++ ".")%string ;;
   match failed with
   | _ :: _ =>
       print net ("Documents with errors: "
                ++ str_of_Z (Z.of_nat (List.length failed)))%string ;;
       sample <- lift (json_dumps_indent (VList (firstn 5 failed)) 2) ;;
       print net sample
   | [] => print net "All documents indexed without reported errors."
   end)%io.

(** ** The script: [load_dataset], [main] and the [__main__] block

    [main] passes [args.es_url] to [import_documents] as it is, and it is
    [None] when neither [--es-url] nor [ES_URL] is given. The three
    definitions below are [send_bulk], the loop and [import_documents] with
    the URL as [main] passes it: on [None] the first statement of
    [send_bulk], [es_url.rstrip('/')], raises before any request. *)

Definition send_bulk_at (net : network) (es_url : option string)
  (api_key : string) (lines : list string) (timeout : Z) : M value :=
  match es_url with
  | Some u => send_bulk net u api_key lines timeout
  | None => lift (Raise AttributeError)
  end.

Fixpoint send_batches_at (net : network) (es_url : option string)
  (api_key : string) (timeout : Z) (batches : list (list string))
  (state : Z * list value) : M (Z * list value) :=
  match batches with
  | [] => ret state
  | batch :: rest =>
      (result <- send_bulk_at net es_url api_key batch timeout ;;
       let batches_sent := (fst state + 1)%Z in
       items <- lift (py_get result "items" (VList [])) ;;
       more <- lift (py_iter items) ;;
       send_batches_at net es_url api_key timeout rest
         (batches_sent, snd state ++ more))%io
  end.

Definition import_documents_at (net : network) (dataset : value)
  (es_url : option string)
  (api_key products_index promotions_index : string)
  (chunk_size timeout : Z) (skip_promotions : bool) : M unit :=
  (products <- lift (py_get dataset "products" (VList [])) ;;
   promotions <- (if negb skip_promotions
                  then lift (py_get dataset "promotions" (VList []))
                  else ret (VList [])) ;;
   product_lines <- lift (make_bulk_lines products products_index) ;;
   promotion_lines <- (if truthy promotions
                       then lift (make_bulk_lines promotions promotions_index)
                       else ret []) ;;
   state <- send_batches_at net es_url api_key timeout
              (chunked product_lines chunk_size) (0%Z, []) ;;
   state <- send_batches_at net es_url api_key timeout
              (chunked promotion_lines chunk_size) state ;;
   let batches_sent := fst state in
   let errors := snd state in
   failed <- lift (select_failed errors) ;;
   print net ("Bulk import finished. Batches sent: "
            ++ str_of_Z batches_sent ++ ".")%string ;;
   match failed with
   | _ :: _ =>
       print net ("Documents with errors: "
                ++ str_of_Z (Z.of_nat (List.length failed)))%string ;;
       sample <- lift (json_dumps_indent (VList (firstn 5 failed)) 2) ;;
       print net sample
   | [] => print net "All documents indexed without reported errors."
   end)%io.

(** The namespace [parse_args] returns. [--es-url] and [--api-key] default
    to environment variables and are [None] without them. *)
Record namespace : Type := mk_namespace {
  ns_dataset_path : string;
  ns_es_url : option string;
  ns_api_key : option string;
  ns_products_index : string;
  ns_promotions_index : string;
  ns_chunk_size : Z;
  ns_timeout : Z;
  ns_skip_promotions : bool
}.

(** What [path.read_text(encoding="utf-8")] does. *)
Inductive read_outcome : Type :=
| ReadNotFound                  (* raises [FileNotFoundError] *)
| ReadRaises                    (* raises another error, which is not caught *)
| ReadText (content : string).

(** What the script runs in: the files, the network, and the library
    functions that are not modelled: [json.loads] (a value, or the text of
    its [JSONDecodeError]), [str] of a [Path] and [str] of an exception of
    [requests]. *)
Record environment : Type := mk_environment {
  read_text : string -> read_outcome;
  json_loads : string -> value + string;
  path_text : string -> string;
  exc_text : request_exception -> string;
  env_net : network
}.

(** What ends the script, if not a normal return. *)
Inductive script_exn : Type :=
| Raised (e : exn)
| ReadError.                    (* the uncaught error of [read_text] *)

Definition load_dataset (env : environment) (path : string)
  : value + script_exn :=
  match read_text env path with
  | ReadNotFound =>
      inr (Raised (SystemExit
                     ("Dataset file not found: " ++ path_text env path)))
  | ReadRaises => inr ReadError
  | ReadText content =>
      match json_loads env content with
      | inl dataset => inl dataset
      | inr exc =>
          inr (Raised (SystemExit ("Invalid JSON in dataset file: " ++ exc)))
      end
  end.

(** [not args.api_key]: the key is [None] or empty. *)
Definition api_key_of (args : namespace) : option string :=
  match ns_api_key args with
  | Some key => if String.eqb key EmptyString then None else Some key
  | None => None
  end.

Definition main (env : environment) (args : namespace) (w : world)
  : option script_exn * world :=
  match load_dataset env (ns_dataset_path args) with
  | inr e => (Some e, w)
  | inl dataset =>
      match api_key_of args with
      | None =>
          (Some (Raised (SystemExit
                           ("API key is required. Provide via --api-key "
                              ++ "or ELASTIC_API_KEY env var."))), w)
      | Some api_key =>
          match import_documents_at (env_net env) dataset (ns_es_url args)
                  api_key (ns_products_index args) (ns_promotions_index args)
                  (ns_chunk_size args) (ns_timeout args)
                  (ns_skip_promotions args) w with
          | (Ok _, w') => (None, w')
          | (Raise e, w') => (Some (Raised e), w')
          end
      end
  end.

(** The [if __name__ == "__main__"] block. *)
Definition script (env : environment) (args : namespace) (w : world)
  : option script_exn * world :=
  match main env args w with
  | (Some (Raised (RequestException exc)), w') =>
      (Some (Raised (SystemExit
                       ("Network error during import: " ++ exc_text env exc))),
       w')
  | other => other
  end.

(** * Specification vocabulary

    The notions the properties below are stated with. *)

(** The identity of a record: the value of [product_id] if it is truthy
    ("non-empty"), else the value of [promotion_id] if that one is. *)
Definition identity (record : pydict) : option value :=
  let promotion_id :=
    match lookup "promotion_id" record with
    | Some v => if truthy v then Some v else None
    | None => None
    end in
  match lookup "product_id" record with
  | Some v => if truthy v then Some v else promotion_id
  | None => promotion_id
  end.

(** What [doc.get("product_id") or doc.get("promotion_id")] evaluates to. *)
Definition doc_id_of (record : pydict) : value :=
  let product_id :=
    match lookup "product_id" record with Some v => v | None => VNone end in
  if truthy product_id then product_id
  else match lookup "promotion_id" record with Some v => v | None => VNone end.

(** The text of an action line, given the text of the identity if any:
    [{"index": {"_index": <name>}}] or
    [{"index": {"_index": <name>, "_id": <id>}}]. *)
Definition action_line (index_name : string) (id : option string) : string :=
  match id with
  | None =>
      "{" ++ quoted "index" ++ ": {" ++ quoted "_index" ++ ": "
          ++ encode_str index_name ++ "}}"
  | Some t =>
      "{" ++ quoted "index" ++ ": {" ++ quoted "_index" ++ ": "
          ++ encode_str index_name ++ ", " ++ quoted "_id" ++ ": " ++ t ++ "}}"
  end.

(** The line budget of a batch: [size * 2]. *)
Definition budget (size : Z) : nat := Z.to_nat (size * 2).

(** The world after one more request. *)
Definition after_post (w : world) (r : request) : world :=
  mk_world (posted w ++ [r]) (stdout w).

(** [sub] occurs in [s]. *)
Definition contains (s sub : string) : Prop :=
  exists pre post : string, s = (pre ++ sub ++ post)%string.

(** Records [i * c .. i * c + c - 1] of a collection. *)
Definition group (c i : nat) (docs : list value) : list value :=
  firstn c (skipn (i * c) docs).

(** What [send_bulk] returns or raises for a request that is sent, by the
    outcome of [requests.post]. *)
Definition post_result (o : post_outcome) : result value :=
  match o with
  | PostRaises e => Raise (RequestException e)
  | PostReturns r =>
      match raise_for_status r with
      | Some exc =>
          Raise (SystemExit
                   ("Bulk request failed: " ++ exc ++ LF ++ text r)%string)
      | None =>
          match json r with
          | Some decoded => Ok decoded
          | None => Raise (RequestException JSONDecodeError)
          end
      end
  end.

(** The per-item outcomes of one BatchResult: what
    [errors.extend(result.get("items", []))] appends. *)
Definition batch_items (batch_result : value) : result (list value) :=
  (items <- py_get batch_result "items" (VList []) ;; py_iter items)%result.

(** The request is sent: its text encodes, [requests.post] does not refuse
    it and the timeout is positive. *)
Definition is_sent (net : network) (history : list request) (req : request)
  : bool :=
  negb (has_surrogate (req_data req))
  && match refuses net history req with None => true | Some _ => false end
  && (0 <? req_timeout req)%Z.

(** What [send_bulk] returns or raises for a request, sent or not. *)
Definition send_result (net : network) (history : list request)
  (req : request) : result value :=
  if has_surrogate (req_data req) then Raise UnicodeEncodeError
  else
    match refuses net history req with
    | Some e => Raise e
    | None =>
        if (req_timeout req <=? 0)%Z then Raise ValueError
        else post_result (net history req)
    end.

(** The answers [send_bulk] gets to a sequence of requests made one after
    the other, starting after the requests [history]. *)
Fixpoint answers (net : network) (history reqs : list request)
  : list (result value) :=
  match reqs with
  | [] => []
  | req :: rest =>
      send_result net history req :: answers net (history ++ [req]) rest
  end.

(** The lines of a collection: the action line and the body of each record
    in turn. *)
Fixpoint interleave (actions bodies : list string) : list string :=
  match actions, bodies with
  | action :: actions', body :: bodies' =>
      action :: body :: interleave actions' bodies'
  | _, _ => []
  end.

(** An item carries a non-empty error detail under the [index] key. *)
Definition carries_error (item : value) : bool :=
  match item with
  | VDict outcome_by_op =>
      match lookup "index" outcome_by_op with
      | Some (VDict outcome) =>
          match lookup "error" outcome with
          | Some detail => truthy detail
          | None => false
          end
      | _ => false
      end
  | _ => false
  end.

(** A collection of the dataset: [dataset.get(name, [])]. *)
Definition collection (dataset : pydict) (name : string) : value :=
  match lookup name dataset with Some v => v | None => VList [] end.

(** The encoding phase of [import_documents]: the lines of the products and
    of the promotions. *)
Definition encode_collections (dataset : value)
  (products_index promotions_index : string) (skip_promotions : bool)
  : result (list string * list string) :=
  (products <- py_get dataset "products" (VList []) ;;
   promotions <- (if negb skip_promotions
                  then py_get dataset "promotions" (VList [])
                  else Ok (VList [])) ;;
   product_lines <- make_bulk_lines products products_index ;;
   promotion_lines <- (if truthy promotions
                       then make_bulk_lines promotions promotions_index
                       else Ok []) ;;
   Ok (product_lines, promotion_lines))%result.

(** The reporting phase of [import_documents], from the loop state. *)
Definition report (net : network) (state : Z * list value) : M unit :=
  (failed <- lift (select_failed (snd state)) ;;
   print net ("Bulk import finished. Batches sent: "
            ++ str_of_Z (fst state) ++ ".")%string ;;
   match failed with
   | _ :: _ =>
       print net ("Documents with errors: "
                ++ str_of_Z (Z.of_nat (List.length failed)))%string ;;
       sample <- lift (json_dumps_indent (VList (firstn 5 failed)) 2) ;;
       print net sample
   | [] => print net "All documents indexed without reported errors."
   end)%io.

(** The lines of a RunSummary as printed. *)
Definition summary_lines (batches_sent : Z) (failed : list value)
  (sample : string) : list string :=
  ("Bulk import finished. Batches sent: "
     ++ str_of_Z batches_sent ++ ".")%string
  :: match failed with
     | [] => ["All documents indexed without reported errors."]
     | _ :: _ =>
         [("Documents with errors: "
             ++ str_of_Z (Z.of_nat (List.length failed)))%string;
          sample]
     end.

(** A transport call fails: [requests.post] raises (connection failure,
    timeout, ...) or the response has an error status, 4xx or 5xx. *)
Definition transport_failure (o : post_outcome) : Prop :=
  match o with
  | PostRaises _ => True
  | PostReturns r => (400 <= status_code r < 600)%Z
  end.

(** A collection with a record that [json.dumps] rejects. *)
Definition unencodable (records : value) : Prop :=
  exists (docs : list value) (doc : value) (e : exn),
    records = VList docs /\ In doc docs /\ json_dumps doc = Raise e.

(** A value of the JSON types only, which is what [response.json()] and
    [json.loads] return. *)
Fixpoint is_json (v : value) : bool :=
  match v with
  | VNone | VBool _ | VInt _ | VFloat _ | VStr _ => true
  | VList l => forallb is_json l
  | VDict d => forallb (fun '(_, x) => is_json x) d
  | VBytes _ => false
  end.

(** An item as the sink reports it: a mapping whose [index] entry, if any,
    is a mapping. *)
Definition well_shaped_item (item : value) : bool :=
  match item with
  | VDict outcome_by_op =>
      match lookup "index" outcome_by_op with
      | Some (VDict _) | None => true
      | Some _ => false
      end
  | _ => false
  end.

(** An answer that lets the run go on: a response without error status
    whose body is a JSON mapping with well-shaped items, or without items. *)
Definition well_formed_answer (o : post_outcome) : Prop :=
  exists (r : response) (d : pydict) (items : list value),
    o = PostReturns r
    /\ raise_for_status r = None
    /\ json r = Some (VDict d)
    /\ collection d "items" = VList items
    /\ Forall (fun item => well_shaped_item item = true
                           /\ is_json item = true) items.

(** The text has a raw newline. *)
Fixpoint has_lf (s : string) : bool :=
  match s with
  | EmptyString => false
  | String c rest => Ascii.eqb c (ascii_of_nat 10) || has_lf rest
  end.

(** No float of the value is written with a newline (none is, in Python:
    the texts are those of [float.__repr__], [NaN] and [Infinity]). *)
Fixpoint plain_floats (v : value) : bool :=
  match v with
  | VFloat r => negb (has_lf r)
  | VList l => forallb plain_floats l
  | VDict d => forallb (fun '(_, x) => plain_floats x) d
  | _ => true
  end.

(** [s.split("\n")]: the pieces of a text between its newlines. *)
Fixpoint split_lf (s : string) : list string :=
  match s with
  | EmptyString => [EmptyString]
  | String c rest =>
      if Ascii.eqb c (ascii_of_nat 10) then EmptyString :: split_lf rest
      else match split_lf rest with
           | [] => [String c EmptyString]
           | piece :: pieces => String c piece :: pieces
           end
  end.

(** The last character of the text is a slash. *)
Fixpoint ends_with_slash (s : string) : bool :=
  match s with
  | EmptyString => false
  | String c EmptyString => Ascii.eqb c "/"%char
  | String _ rest => ends_with_slash rest
  end.


(** The text the script exits with, for the exceptions of a transport call:
    the [SystemExit] of [send_bulk] as it is, a [RequestException] as the
    [__main__] block rewrites it. *)
Definition exit_text (env : environment) (e : exn) : option string :=
  match e with
  | SystemExit msg => Some msg
  | RequestException exc =>
      Some ("Network error during import: " ++ exc_text env exc)%string
  | _ => None
  end.

(** * Example runs

    Three products, two of them with a [product_id], and one promotion;
    networks that answer every request, report one failed item, fail on the
    second request, or answer the first request with a redirect status. *)

Definition apple : pydict :=
  [("product_id", VStr "p1"); ("name", VStr "Apple")].
Definition pear : pydict := [("product_id", VInt 7); ("name", VStr "Pear")].
Definition fig : pydict := [("name", VStr "Fig")].
Definition unnamed : pydict :=
  [("product_id", VStr EmptyString); ("promotion_id", VInt 0);
   ("name", VStr "Kiwi")].
Definition promo : pydict :=
  [("promotion_id", VStr "promo-1"); ("discount", VInt 10)].
Definition broken_promo : pydict :=
  [("promotion_id", VStr "promo-2"); ("banner", VBytes "png")].

Definition basket : pydict :=
  [("products", VList [VDict apple; VDict pear; VDict fig]);
   ("promotions", VList [VDict promo])].

Definition broken_basket : pydict :=
  [("products", VList [VDict apple]);
   ("promotions", VList [VDict promo; VDict broken_promo])].

Definition apple_body : string :=
  "{" ++ quoted "product_id" ++ ": " ++ quoted "p1" ++ ", "
      ++ quoted "name" ++ ": " ++ quoted "Apple" ++ "}".

Definition fig_body : string :=
  "{" ++ quoted "name" ++ ": " ++ quoted "Fig" ++ "}".

Definition unnamed_body : string :=
  "{" ++ quoted "product_id" ++ ": " ++ quoted EmptyString ++ ", "
      ++ quoted "promotion_id" ++ ": 0, "
      ++ quoted "name" ++ ": " ++ quoted "Kiwi" ++ "}".

Definition basket_product_lines : list string :=
  match make_bulk_lines (collection basket "products") "products" with
  | Ok lines => lines
  | Raise _ => []
  end.

Definition basket_promotion_lines : list string :=
  match make_bulk_lines (collection basket "promotions") "promotions" with
  | Ok lines => lines
  | Raise _ => []
  end.

Definition empty_world : world := mk_world [] [].

Definition indexed : value := VDict [("index", VDict [("status", VInt 201)])].
Definition rejected : value :=
  VDict [("index",
          VDict [("status", VInt 400);
                 ("error",
                  VDict [("type", VStr "mapper_parsing_exception")])])].

Definition ok_response (items : list value) : response :=
  mk_response 200 "OK" "http://es:9200/_bulk" "{}"
    (Some (VDict [("errors", VBool false); ("items", VList items)])).

Definition unavailable : response :=
  mk_response 503 "Service Unavailable" "http://es:9200/_bulk"
    "upstream is down" None.

Definition redirect : response :=
  mk_response 302 "Found" "http://es:9200/_bulk" "{}" (Some (VDict [])).

(** A network that refuses no request, with a standard output in UTF-8. *)
Definition served (respond : list request -> request -> post_outcome)
  : network :=
  mk_network respond (fun _ _ => None) (fun line => negb (has_surrogate line)).

Definition net_ok : network :=
  served (fun _ _ => PostReturns (ok_response [indexed; indexed])).

Definition net_one_rejected : network :=
  served (fun history _ =>
      match history with
      | [] => PostReturns (ok_response [indexed; rejected])
      | _ => PostReturns (ok_response [indexed])
      end).

Definition net_fails_second : network :=
  served (fun history _ =>
      match history with
      | [_] => PostReturns unavailable
      | _ => PostReturns (ok_response [indexed])
      end).

Definition net_redirects_first : network :=
  served (fun history _ =>
      match history with
      | [] => PostReturns redirect
      | _ => PostReturns (ok_response [indexed])
      end).

Definition run_basket (net : network) (chunk_size : Z) (skip : bool)
  : result unit * world :=
  import_documents net (VDict basket) "http://es:9200/" "KEY"
    "products" "promotions" chunk_size 60 skip empty_world.

Definition basket_request (batch : list string) : request :=
  bulk_request "http://es:9200/" "KEY" batch 60.

(** A record whose name holds a newline, datasets whose collections are
    [null], networks whose answers are not JSON, hold a misshapen item or
    hold no items, and an environment and arguments for the script. *)

Definition two_liner : pydict :=
  [("product_id", VStr "p9"); ("name", VStr ("Two" ++ LF ++ "lines"))].

Definition two_liner_lines : list string :=
  match make_bulk_lines (VList [VDict two_liner; VDict fig]) "products" with
  | Ok lines => lines
  | Raise _ => []
  end.

Definition basket_null_promotions : pydict :=
  [("products", VList [VDict apple]); ("promotions", VNone)].

Definition basket_null_products : pydict :=
  [("products", VNone); ("promotions", VList [VDict promo])].

Definition not_json : response :=
  mk_response 200 "OK" "http://es:9200/_bulk" "<html>gateway</html>" None.

Definition net_not_json_second : network :=
  served (fun history _ =>
      match history with
      | [_] => PostReturns not_json
      | _ => PostReturns (ok_response [indexed])
      end).

Definition net_misshapen_item : network :=
  served (fun _ _ => PostReturns (ok_response [indexed; VStr "created"])).

Definition net_no_items : network :=
  served
    (fun _ _ =>
       PostReturns
         (mk_response 200 "OK" "http://es:9200/_bulk" "{}" (Some (VDict [])))).

Definition net_times_out_second : network :=
  served (fun history _ =>
      match history with
      | [_] => PostRaises Timeout
      | _ => PostReturns (ok_response [indexed])
      end).

(** A record whose name ends with a lone surrogate (U+D83D, the first half
    of an emoji), as [json.loads] reads it from the escape [\ud83d]; an
    item whose error detail holds an accented letter, and a network whose
    standard output encodes ASCII only. *)

Definition lone_surrogate : string :=
  String (ascii_of_nat 237)
    (String (ascii_of_nat 160) (String (ascii_of_nat 189) EmptyString)).

Definition half_emoji : pydict :=
  [("product_id", VStr "p5"); ("name", VStr ("Kiwi " ++ lone_surrogate))].

Definition half_emoji_lines : list string :=
  match make_bulk_lines (VList [VDict half_emoji]) "products" with
  | Ok lines => lines
  | Raise _ => []
  end.

Definition basket_half_emoji : pydict :=
  [("products", VList [VDict apple; VDict half_emoji])].



(** A network on which [requests.post] refuses every request: the URL has
    no scheme. *)
Definition net_no_scheme : network :=
  mk_network
    (fun _ _ => PostReturns (ok_response [indexed]))
    (fun _ _ => Some (RequestException InvalidURL))
    (fun line => negb (has_surrogate line)).


Definition basket_file : string := "data/healthy_basket_dataset.json".

Definition example_env (net : network) : environment :=
  mk_environment
    (fun path => if String.eqb path basket_file
                 then ReadText "(the text of the basket)"
                 else ReadNotFound)
    (fun _ => inl (VDict basket))
    (fun path => path)
    (fun exc => match exc with
                | ConnectionError => "connection refused"
                | Timeout => "read timed out"
                | TooManyRedirects => "too many redirects"
                | InvalidURL => "no scheme supplied"
                | JSONDecodeError => "expecting value"
                end)
    net.

Definition example_args : namespace :=
  mk_namespace basket_file (Some "http://es:9200/") (Some "KEY")
    "products" "promotions" 1 60 false.

(** The arguments with [--timeout 0], which [parse_args] accepts. *)
Definition example_args_no_timeout : namespace :=
  mk_namespace basket_file (Some "http://es:9200/") (Some "KEY")
    "products" "promotions" 1 0 false.

(** * Proof tools *)

(** Induction on values that goes through the lists and the dicts. *)
Section ValueInduction.

Variable P : value -> Prop.
Hypothesis HNone : P VNone.
Hypothesis HBool : forall b, P (VBool b).
Hypothesis HInt : forall n, P (VInt n).
Hypothesis HFloat : forall r, P (VFloat r).
Hypothesis HStr : forall s, P (VStr s).
Hypothesis HList : forall l, Forall P l -> P (VList l).
Hypothesis HDict : forall d, Forall (fun kv => P (snd kv)) d -> P (VDict d).
Hypothesis HBytes : forall b, P (VBytes b).

Fixpoint value_nested_ind (v : value) : P v :=
  match v with
  | VNone => HNone
  | VBool b => HBool b
  | VInt n => HInt n
  | VFloat r => HFloat r
  | VStr s => HStr s
  | VList l =>
      HList l ((fix all (l : list value) : Forall P l :=
                  match l with
                  | [] => Forall_nil P
                  | x :: rest =>
                      Forall_cons x (value_nested_ind x) (all rest)
                  end) l)
  | VDict d =>
      HDict d ((fix all (d : pydict) : Forall (fun kv => P (snd kv)) d :=
                  match d with
                  | [] => Forall_nil _
                  | kv :: rest =>
                      Forall_cons kv (value_nested_ind (snd kv)) (all rest)
                  end) d)
  | VBytes b => HBytes b
  end.

End ValueInduction.

(** Case analysis on the result scrutinised in the goal. *)
Ltac case_result H :=
  match goal with
  | |- context [rbind ?r _] => destruct r eqn:H
  | |- context [match ?r with Ok _ => _ | Raise _ => _ end] =>
      destruct r eqn:H
  end.

(** * Properties *)

(** ** The Batcher *)

Section Chunked.

Lemma chunked_loop_concat (size : Z) (lines chunk : list string) :
  List.concat (chunked_loop size chunk lines) = chunk ++ lines.
Proof.
  revert chunk.
  induction lines as [|line rest IH]; intros chunk; simpl.
  - destruct chunk; simpl; now rewrite ?app_nil_r.
  - destruct (Z.of_nat (List.length (chunk ++ [line])) >=? size * 2)%Z;
      simpl; rewrite IH; simpl; now rewrite <- app_assoc.
Qed.

(** A non-positive [size] makes the test [len(chunk) >= size * 2] succeed
    as soon as one line is appended. *)
Lemma chunked_loop_nonpositive (size : Z) (lines : list string) :
  (size <= 0)%Z ->
  chunked_loop size [] lines = map (fun line => [line]) lines.
Proof.
  intros Hsize.
  induction lines as [|line rest IH]; simpl; [reflexivity|].
  destruct (Z.geb_spec 1 (size * 2)) as [_|Hlt]; [|lia].
  now rewrite IH.
Qed.

Variable size : Z.
Hypothesis size_pos : (0 < size)%Z.

Local Abbreviation m := (budget size).

Lemma budget_pos : 0 < m.
Proof. unfold budget. lia. Qed.

Lemma full_iff (chunk : list string) :
  (Z.of_nat (List.length chunk) >=? size * 2)%Z = (m <=? List.length chunk).
Proof.
  unfold budget.
  destruct (Z.geb_spec (Z.of_nat (List.length chunk)) (size * 2));
    destruct (Nat.leb_spec (Z.to_nat (size * 2)) (List.length chunk));
    try reflexivity; lia.
Qed.

Lemma chunked_loop_short (lines chunk : list string) :
  List.length chunk + List.length lines < m ->
  chunked_loop size chunk lines =
    match chunk ++ lines with [] => [] | batch => [batch] end.
Proof.
  revert chunk.
  induction lines as [|line rest IH]; intros chunk Hlen; simpl.
  - rewrite app_nil_r. now destruct chunk.
  - rewrite full_iff.
    simpl in Hlen.
    destruct (Nat.leb_spec m (List.length (chunk ++ [line]))) as [Hge|_].
    + rewrite length_app in Hge. simpl in Hge. lia.
    + rewrite IH by (rewrite length_app; simpl; lia).
      now rewrite <- app_assoc.
Qed.

Lemma chunked_loop_full (lines chunk : list string) :
  List.length chunk < m ->
  m <= List.length chunk + List.length lines ->
  chunked_loop size chunk lines =
    firstn m (chunk ++ lines)
      :: chunked_loop size [] (skipn m (chunk ++ lines)).
Proof.
  revert chunk.
  induction lines as [|line rest IH]; intros chunk Hlt Hge; simpl in *.
  - lia.
  - rewrite full_iff.
    destruct (Nat.leb_spec m (List.length (chunk ++ [line])))
      as [Hfull|Hnot].
    + rewrite length_app in Hfull. simpl in Hfull.
      assert (Hm : m = List.length (chunk ++ [line]))
        by (rewrite length_app; simpl; lia).
      replace (chunk ++ line :: rest) with ((chunk ++ [line]) ++ rest)
        by now rewrite <- app_assoc.
      rewrite Hm, firstn_app, skipn_app, firstn_all, skipn_all, Nat.sub_diag.
      simpl. now rewrite app_nil_r.
    + rewrite length_app in Hnot. simpl in Hnot.
      rewrite IH by (rewrite ?length_app; simpl; lia).
      now rewrite <- app_assoc.
Qed.

(** The batches by position: batch [i] is the slice of [m] lines that
    starts at line [i * m], and there is one for every [i] with
    [i * m < len(lines)]. *)
Lemma chunked_nth_error (lines : list string) (i : nat) :
  nth_error (chunked lines size) i =
    if i * m <? List.length lines
    then Some (firstn m (skipn (i * m) lines))
    else None.
Proof.
  pose proof budget_pos as Hm.
  remember (List.length lines) as n eqn:Hn.
  revert lines Hn i.
  induction n as [n IH] using lt_wf_ind; intros lines Hn i.
  unfold chunked.
  destruct (Nat.lt_ge_cases n m) as [Hshort|Hfull].
  - rewrite chunked_loop_short by (simpl; lia). simpl.
    destruct lines as [|line rest]; simpl in Hn; subst n.
    + destruct (Nat.ltb_spec (i * m) 0); [lia|]. now destruct i.
    + destruct i as [|i]; simpl.
      * f_equal. rewrite firstn_all2; [reflexivity|simpl; lia].
      * destruct (Nat.ltb_spec (m + i * m) (S (List.length rest)));
          [lia|].
        now destruct i.
  - rewrite chunked_loop_full by (simpl; lia). simpl app.
    destruct i as [|i]; simpl nth_error.
    + simpl. destruct (Nat.ltb_spec 0 n); [reflexivity|lia].
    + fold (chunked (skipn m lines) size).
      rewrite (IH (n - m)) with (lines := skipn m lines);
        [|lia|rewrite length_skipn; lia].
      rewrite skipn_skipn.
      replace (i * m + m) with (S i * m) by (simpl; lia).
      destruct (Nat.ltb_spec (i * m) (n - m));
        destruct (Nat.ltb_spec (S i * m) n);
        try reflexivity; simpl in *; lia.
Qed.

Lemma chunked_length (lines : list string) :
  List.length (chunked lines size) = (List.length lines + m - 1) / m.
Proof.
  pose proof budget_pos as Hm.
  set (k := (List.length lines + m - 1) / m).
  assert (Hk : k * m <= List.length lines + m - 1 < (k + 1) * m).
  { pose proof (Nat.div_mod_eq (List.length lines + m - 1) m) as E.
    pose proof (Nat.mod_upper_bound (List.length lines + m - 1) m) as B.
    fold k in E. nia. }
  apply Nat.le_antisymm.
  - apply nth_error_None. rewrite chunked_nth_error.
    destruct (Nat.ltb_spec (k * m) (List.length lines)); [nia|reflexivity].
  - destruct k as [|k]; [lia|].
    apply (proj1 (nth_error_Some (chunked lines size) k)).
    rewrite chunked_nth_error.
    destruct (Nat.ltb_spec (k * m) (List.length lines)); [discriminate|nia].
Qed.

End Chunked.

(** The ceiling of [(a / 2) / c] over the rationals, in integer arithmetic. *)
Lemma Qceiling_half_div (a c : Z) :
  (0 < c)%Z ->
  Qceiling (inject_Z a / 2 / inject_Z c)%Q = ((a + 2 * c - 1) / (2 * c))%Z.
Proof.
  intros Hc.
  unfold Qceiling.
  assert (E : (- (inject_Z a / 2 / inject_Z c) ==
               inject_Z (- a) / inject_Z (2 * c))%Q).
  { rewrite inject_Z_opp, inject_Z_mult.
    change (inject_Z 2) with 2%Q.
    assert (Hc' : ~ (inject_Z c == 0)%Q).
    { unfold Qeq. simpl. lia. }
    field. exact Hc'. }
  rewrite (Qfloor_comp _ _ E), <- Zdiv_Qdiv.
  set (d := (2 * c)%Z).
  assert (Hd : (0 < d)%Z) by (unfold d; lia).
  assert (Hd0 : d <> 0%Z) by lia.
  pose proof (Z.div_mod (- a) d Hd0) as E1.
  pose proof (Z.mod_pos_bound (- a) d Hd) as B1.
  pose proof (Z.div_mod (a + d - 1) d Hd0) as E2.
  pose proof (Z.mod_pos_bound (a + d - 1) d Hd) as B2.
  nia.
Qed.

(** C2: for a positive chunk size [c] and [L] input lines the Batcher yields
    [ceil((L / 2) / c)] batches; batch [i] is the next [min(2c, remaining)]
    lines of the input, in input order; and the batches concatenated are the
    input. *)
Theorem chunked_partitions_input (c : Z) (lines : list string) :
  (0 < c)%Z ->
  Z.of_nat (List.length (chunked lines c)) =
    Qceiling (inject_Z (Z.of_nat (List.length lines)) / 2 / inject_Z c)%Q
  /\ (forall (i : nat) (batch : list string),
        nth_error (chunked lines c) i = Some batch ->
        let sent := i * Z.to_nat (2 * c) in
        let remaining := List.length lines - sent in
        batch = firstn (Z.to_nat (2 * c)) (skipn sent lines)
        /\ List.length batch = Nat.min (Z.to_nat (2 * c)) remaining
        /\ 0 < remaining)
  /\ List.concat (chunked lines c) = lines.
Proof.
  intros Hc.
  replace (2 * c)%Z with (c * 2)%Z by lia.
  split; [|split].
  - rewrite Qceiling_half_div by exact Hc.
    rewrite chunked_length by exact Hc.
    rewrite Nat2Z.inj_div. unfold budget.
    f_equal; lia.
  - intros i batch Hnth sent remaining.
    rewrite chunked_nth_error in Hnth by exact Hc.
    unfold budget in Hnth. fold sent in Hnth.
    destruct (Nat.ltb_spec sent (List.length lines)) as [Hlt|]; [|discriminate].
    injection Hnth as <-.
    split; [reflexivity|].
    rewrite length_firstn, length_skipn.
    split; [reflexivity|unfold remaining; lia].
  - apply chunked_loop_concat.
Qed.

(** Witness of C2: five lines in batches of one record (two lines). *)
Lemma chunked_partitions_input_witness :
  Z.of_nat (List.length (chunked ["a"; "b"; "c"; "d"; "e"] 1)) = 3%Z
  /\ List.concat (chunked ["a"; "b"; "c"; "d"; "e"] 1)
     = ["a"; "b"; "c"; "d"; "e"].
Proof.
  destruct (chunked_partitions_input 1 ["a"; "b"; "c"; "d"; "e"] Z.lt_0_1)
    as (Hcount & _ & Hconcat).
  split; [rewrite Hcount; reflexivity|exact Hconcat].
Defined.

(** ** Values and [json.dumps] *)


Section MapM.

Context {A B : Type}.

Lemma mapM_ext_in (f g : A -> result B) (l : list A) :
  (forall x, In x l -> f x = g x) -> mapM f l = mapM g l.
Proof.
  induction l as [|x rest IH]; intros H; simpl; [reflexivity|].
  rewrite (H x (or_introl eq_refl)), IH; [reflexivity|].
  intros y Hy. apply H. now right.
Qed.

Lemma mapM_cons (f : A -> result B) (x : A) (rest : list A) :
  mapM f (x :: rest) =
    (y <- f x ;; ys <- mapM f rest ;; Ok (y :: ys))%result.
Proof. reflexivity. Qed.

Lemma mapM_Ok_in (f : A -> result B) (l : list A) (ys : list B) (x : A) :
  mapM f l = Ok ys -> In x l -> exists y, f x = Ok y /\ In y ys.
Proof.
  revert ys.
  induction l as [|a rest IH]; intros ys Hm Hin; [contradiction|].
  simpl in Hm.
  destruct (f a) as [b|] eqn:Hfa; [|discriminate].
  destruct (mapM f rest) as [bs|] eqn:Hrest; [|discriminate].
  simpl in Hm. injection Hm as <-.
  destruct Hin as [<-|Hin].
  - exists b. split; [exact Hfa|now left].
  - destruct (IH bs eq_refl Hin) as (y & Hy & Hyin).
    exists y. split; [exact Hy|now right].
Qed.

End MapM.

Lemma append_assoc (a b c : string) : ((a ++ b) ++ c = a ++ (b ++ c))%string.
Proof. induction a as [|ch a IH]; simpl; [reflexivity|now rewrite IH]. Qed.

Lemma append_nil_r (a : string) : (a ++ EmptyString = a)%string.
Proof. induction a as [|ch a IH]; simpl; [reflexivity|now rewrite IH]. Qed.

Lemma contains_concat (sep x : string) (parts : list string) :
  In x parts -> contains (String.concat sep parts) x.
Proof.
  induction parts as [|p rest IH]; intros Hin; [contradiction|].
  destruct Hin as [->|Hin].
  - destruct rest as [|q rest]; simpl.
    + exists EmptyString, EmptyString. simpl. now rewrite append_nil_r.
    + exists EmptyString, (sep ++ String.concat sep (q :: rest))%string.
      reflexivity.
  - destruct (IH Hin) as (pre & post & E).
    destruct rest as [|q rest]; [contradiction|].
    exists (p ++ sep ++ pre)%string, post.
    change (String.concat sep (p :: q :: rest))
      with (p ++ sep ++ String.concat sep (q :: rest))%string.
    rewrite E. now rewrite !append_assoc.
Qed.

Lemma contains_wrap (pre post s x : string) :
  contains s x -> contains (pre ++ s ++ post)%string x.
Proof.
  intros (a & b & ->).
  exists (pre ++ a)%string, (b ++ post)%string.
  now rewrite !append_assoc.
Qed.

(** Without [indent] the nesting level plays no part. *)
Lemma encode_level (v : value) :
  forall level level', encode None level v = encode None level' v.
Proof.
  induction v as [| | | | |l IH|d IH|] using value_nested_ind;
    intros level level'; try reflexivity.
  - destruct l as [|x rest]; [reflexivity|].
    cbn [encode].
    rewrite (mapM_ext_in (encode None (S level)) (encode None (S level'))).
    + reflexivity.
    + intros y Hy. rewrite Forall_forall in IH. now apply IH.
  - destruct d as [|kv rest]; [reflexivity|].
    cbn [encode].
    match goal with
    | |- rbind (mapM ?f _) _ = rbind (mapM ?g _) _ =>
        rewrite (mapM_ext_in f g)
    end.
    + reflexivity.
    + intros [k y] Hy. rewrite Forall_forall in IH.
      specialize (IH (k, y) Hy (S level) (S level')). simpl in IH.
      now rewrite IH.
Qed.

Lemma lookup_In (k : string) (d : pydict) (v : value) :
  lookup k d = Some v -> In (k, v) d.
Proof.
  induction d as [|[k' v'] rest IH]; simpl; [discriminate|].
  destruct (String.eqb_spec k k') as [->|_].
  - intros [= ->]. now left.
  - intros H. right. now apply IH.
Qed.

(** A field of a dict that [json.dumps] accepts is accepted itself, and its
    text is in the text of the dict, after the key. *)
Lemma json_dumps_field (d : pydict) (body k : string) (v : value) :
  json_dumps (VDict d) = Ok body ->
  lookup k d = Some v ->
  exists t, json_dumps v = Ok t
            /\ contains body (encode_str k ++ ": " ++ t)%string.
Proof.
  intros Hd Hk.
  apply lookup_In in Hk.
  destruct d as [|kv rest]; [contradiction|].
  unfold json_dumps in *. cbn [encode] in Hd.
  match type of Hd with
  | rbind (mapM ?f ?l) _ = _ => destruct (mapM f l) as [parts|] eqn:Hparts
  end; [|discriminate].
  simpl in Hd. injection Hd as <-.
  destruct (mapM_Ok_in _ _ _ _ Hparts Hk) as (part & Hpart & Hin).
  simpl in Hpart.
  destruct (encode None 1 v) as [t|] eqn:Ht; [|discriminate].
  simpl in Hpart. injection Hpart as <-.
  exists t. split.
  - now rewrite (encode_level v 0 1).
  - apply (contains_wrap "{" "}"). now apply contains_concat.
Qed.

(** ** The Line Encoder *)

Lemma dumps_meta_without_id (index_name : string) :
  json_dumps (VDict [("index", VDict [("_index", VStr index_name)])]) =
    Ok (action_line index_name None).
Proof.
  unfold json_dumps, action_line. cbn -[encode_str].
  change (encode_str "index") with (quoted "index").
  change (encode_str "_index") with (quoted "_index").
  unfold quoted, encode_str, dquote. cbn.
  now rewrite ?append_assoc.
Qed.

Lemma dumps_meta_with_id (index_name t : string) (doc_id : value) :
  json_dumps doc_id = Ok t ->
  json_dumps
    (VDict [("index", VDict (dict_set [("_index", VStr index_name)]
                                      "_id" doc_id))]) =
    Ok (action_line index_name (Some t)).
Proof.
  intros Ht.
  unfold json_dumps in *.
  assert (H2 : encode None 2 doc_id = Ok t)
    by (rewrite (encode_level doc_id 2 0); exact Ht).
  cbn -[encode_str]. rewrite H2. cbn -[encode_str].
  change (encode_str "index") with (quoted "index").
  change (encode_str "_index") with (quoted "_index").
  change (encode_str "_id") with (quoted "_id").
  unfold action_line, quoted, encode_str, dquote. cbn.
  now rewrite ?append_assoc.
Qed.

Lemma identity_doc_id (record : pydict) :
  identity record =
    if truthy (doc_id_of record) then Some (doc_id_of record) else None.
Proof.
  unfold identity, doc_id_of.
  destruct (lookup "product_id" record) as [p|];
    destruct (lookup "promotion_id" record) as [q|]; simpl;
    try destruct (truthy p) eqn:Hp; try destruct (truthy q) eqn:Hq;
    rewrite ?Hp, ?Hq; reflexivity.
Qed.

Lemma doc_id_field (record : pydict) :
  truthy (doc_id_of record) = true ->
  exists k, lookup k record = Some (doc_id_of record).
Proof.
  unfold doc_id_of.
  destruct (lookup "product_id" record) as [p|] eqn:Hp; simpl.
  - destruct (truthy p) eqn:Tp.
    + intros _. now exists "product_id".
    + destruct (lookup "promotion_id" record) as [q|] eqn:Hq;
        [|discriminate].
      intros _. now exists "promotion_id".
  - destruct (lookup "promotion_id" record) as [q|] eqn:Hq; [|discriminate].
    intros _. now exists "promotion_id".
Qed.

(** The lines of one record, whatever follows it in the collection. *)
Lemma bulk_lines_cons (record : pydict) (rest : list value)
  (index_name body : string) :
  json_dumps (VDict record) = Ok body ->
  exists action,
    bulk_lines (VDict record :: rest) index_name =
      (lines <- bulk_lines rest index_name ;;
       Ok (action :: body :: lines))%result
    /\ match identity record with
       | Some id =>
           exists t, json_dumps id = Ok t
                     /\ action = action_line index_name (Some t)
       | None => action = action_line index_name None
       end.
Proof.
  intros Hbody.
  cbn [bulk_lines py_get rbind].
  fold (doc_id_of record).
  assert (E : (if truthy
                    match lookup "product_id" record with
                    | Some v => v | None => VNone end
               then Ok match lookup "product_id" record with
                       | Some v => v | None => VNone end
               else Ok match lookup "promotion_id" record with
                       | Some v => v | None => VNone end)
              = Ok (doc_id_of record)).
  { unfold doc_id_of. simpl.
    now destruct (truthy match lookup "product_id" record with
                         | Some v => v | None => VNone end). }
  rewrite E. cbn [rbind].
  rewrite identity_doc_id.
  destruct (truthy (doc_id_of record)) eqn:Hid.
  - destruct (doc_id_field record Hid) as (k & Hk).
    destruct (json_dumps_field record body k _ Hbody Hk) as (t & Ht & _).
    exists (action_line index_name (Some t)).
    rewrite (dumps_meta_with_id index_name t _ Ht), Hbody. cbn [rbind].
    split; [reflexivity|]. now exists t.
  - exists (action_line index_name None).
    rewrite dumps_meta_without_id, Hbody. cbn [rbind].
    split; reflexivity.
Qed.

(** C3: for every collection of records that [json.dumps] accepts and
    every index name, the Line Encoder yields exactly two lines for each
    record, in the order of the records: the action line of the record
    first and the record's text second. The action line of a record has an
    [_id] exactly when the record has a non-empty (truthy) identity, which
    is [product_id] if that is non-empty and else [promotion_id], and the
    [_id] is its text. *)
Theorem make_bulk_lines_record (records : list pydict) (index_name : string)
  (bodies : list string) :
  mapM (fun record => json_dumps (VDict record)) records = Ok bodies ->
  exists actions : list string,
    make_bulk_lines (VList (map VDict records)) index_name
      = Ok (interleave actions bodies)
    /\ List.length (interleave actions bodies) = 2 * List.length records
    /\ Forall2 (fun record action =>
                  match identity record with
                  | Some id =>
                      exists t, json_dumps id = Ok t
                                /\ action = action_line index_name (Some t)
                  | None => action = action_line index_name None
                  end) records actions.
Proof.
  unfold make_bulk_lines. cbn [py_iter rbind].
  revert bodies.
  induction records as [|record rest IH]; intros bodies H.
  - cbn in H. injection H as <-. exists []. cbn. repeat split. constructor.
  - rewrite mapM_cons in H.
    destruct (json_dumps (VDict record)) as [body|] eqn:Hbody;
      [|discriminate].
    cbn [rbind] in H.
    match type of H with
    | rbind ?m _ = _ => destruct m as [bodies'|] eqn:Hrest; [|discriminate]
    end.
    cbn [rbind] in H. injection H as <-.
    destruct (IH _ eq_refl) as (actions & Hlines & Hlen & Hall).
    destruct (bulk_lines_cons record (map VDict rest) index_name body Hbody)
      as (action & Hcons & Hid).
    exists (action :: actions). cbn [map].
    rewrite Hcons, Hlines. cbn [rbind interleave].
    split; [reflexivity|]. split.
    + cbn [List.length]. lia.
    + now constructor.
Qed.

Lemma bulk_lines_length (docs : list value) (index_name : string)
  (lines : list string) :
  bulk_lines docs index_name = Ok lines ->
  List.length lines = 2 * List.length docs.
Proof.
  revert lines.
  induction docs as [|doc rest IH]; intros lines H; simpl in H.
  - injection H as <-. reflexivity.
  - destruct (py_get doc "product_id" VNone) as [p|]; [|discriminate].
    cbn [rbind] in H.
    destruct (if truthy p then Ok p else py_get doc "promotion_id" VNone)
      as [id|]; [|discriminate].
    cbn [rbind] in H.
    destruct (json_dumps _) as [a|]; [|discriminate]. cbn [rbind] in H.
    destruct (json_dumps doc) as [b|]; [|discriminate]. cbn [rbind] in H.
    destruct (bulk_lines rest index_name) as [ls|]; [|discriminate].
    cbn [rbind] in H. injection H as <-.
    simpl. rewrite (IH ls eq_refl). lia.
Qed.

(** The lines of the first [k] records are the first [2k] lines, and the
    lines of the others are the others. *)
Lemma bulk_lines_split (docs : list value) (index_name : string) :
  forall (lines : list string) (k : nat),
    bulk_lines docs index_name = Ok lines ->
    bulk_lines (firstn k docs) index_name = Ok (firstn (2 * k) lines)
    /\ bulk_lines (skipn k docs) index_name = Ok (skipn (2 * k) lines).
Proof.
  induction docs as [|doc rest IH]; intros lines k H.
  - simpl in H. injection H as <-.
    rewrite firstn_nil, skipn_nil, firstn_nil, skipn_nil. now split.
  - destruct k as [|k]; [now split|].
    replace (2 * S k) with (S (S (2 * k))) by lia.
    simpl in H |- *.
    destruct (py_get doc "product_id" VNone) as [p|]; [|discriminate].
    cbn [rbind] in H |- *.
    destruct (if truthy p then Ok p else py_get doc "promotion_id" VNone)
      as [id|]; [|discriminate].
    cbn [rbind] in H |- *.
    destruct (json_dumps _) as [a|]; [|discriminate]. cbn [rbind] in H |- *.
    destruct (json_dumps doc) as [b|]; [|discriminate]. cbn [rbind] in H |- *.
    destruct (bulk_lines rest index_name) as [ls|]; [|discriminate].
    cbn [rbind] in H. injection H as <-.
    destruct (IH ls k eq_refl) as [Hf Hs].
    rewrite Hf. cbn [rbind]. split; [reflexivity|exact Hs].
Qed.

(** The two lines of the record at any position of a collection. *)
Lemma bulk_lines_nth (docs : list value) (index_name : string)
  (lines : list string) (i : nat) (record : pydict) :
  bulk_lines docs index_name = Ok lines ->
  nth_error docs i = Some (VDict record) ->
  exists action body : string,
    nth_error lines (2 * i) = Some action
    /\ nth_error lines (2 * i + 1) = Some body
    /\ json_dumps (VDict record) = Ok body
    /\ match identity record with
       | Some id =>
           exists t, json_dumps id = Ok t
                     /\ action = action_line index_name (Some t)
       | None => action = action_line index_name None
       end.
Proof.
  intros Hlines Hnth.
  destruct (bulk_lines_split docs index_name lines i Hlines) as [_ Hskip].
  remember (2 * i) as k eqn:Hk. clear Hk.
  assert (Hdocs : exists rest, skipn i docs = VDict record :: rest).
  { rewrite <- (Nat.add_0_r i), <- nth_error_skipn in Hnth.
    destruct (skipn i docs) as [|doc rest]; [discriminate|].
    cbn in Hnth. injection Hnth as ->. now exists rest. }
  destruct Hdocs as (rest & Hdocs). rewrite Hdocs in Hskip.
  destruct (json_dumps (VDict record)) as [body|e] eqn:Hbody.
  - destruct (bulk_lines_cons record rest index_name body Hbody)
      as (action & Hcons & Hid).
    rewrite Hcons in Hskip.
    destruct (bulk_lines rest index_name) as [more|]; [|discriminate].
    cbn [rbind] in Hskip. injection Hskip as Hskip.
    exists action, body.
    rewrite <- (Nat.add_0_r k) at 1.
    rewrite <- !nth_error_skipn, <- Hskip.
    repeat split. exact Hid.
  - exfalso. cbn [bulk_lines py_get rbind] in Hskip.
    destruct (if truthy _ then _ else _) as [id|]; [|discriminate].
    cbn [rbind] in Hskip.
    destruct (json_dumps (VDict [_])) as [a|]; [|discriminate].
    cbn [rbind] in Hskip. rewrite Hbody in Hskip. discriminate.
Qed.

(** A collection of records that [json.dumps] accepts has its lines. *)
Lemma bulk_lines_total (records : list pydict) (index_name : string)
  (bodies : list string) :
  mapM (fun record => json_dumps (VDict record)) records = Ok bodies ->
  exists lines, bulk_lines (map VDict records) index_name = Ok lines.
Proof.
  revert bodies.
  induction records as [|record rest IH]; intros bodies H.
  - now exists [].
  - rewrite mapM_cons in H.
    destruct (json_dumps (VDict record)) as [body|] eqn:Hbody;
      [|discriminate].
    cbn [rbind] in H.
    match type of H with
    | rbind ?m _ = _ => destruct m as [bodies'|] eqn:Hrest; [|discriminate]
    end.
    destruct (IH _ eq_refl) as (lines & Hlines).
    destruct (bulk_lines_cons record (map VDict rest) index_name body Hbody)
      as (action & Hcons & _).
    cbn [map]. rewrite Hcons, Hlines. cbn [rbind]. eexists. reflexivity.
Qed.

(** C10: in a collection of records that [json.dumps] accepts, a record at
    any position whose [product_id] and [promotion_id] are both present
    and falsy (empty string, 0, false, null, ...) gets an action line
    without [_id], followed by its body line, which still holds both
    fields, with the text of their values. *)
Theorem falsy_identity_gets_no_id (records : list pydict)
  (index_name : string) (bodies : list string) (i : nat) (record : pydict)
  (v1 v2 : value) :
  mapM (fun record => json_dumps (VDict record)) records = Ok bodies ->
  nth_error records i = Some record ->
  lookup "product_id" record = Some v1 ->
  lookup "promotion_id" record = Some v2 ->
  truthy v1 = false ->
  truthy v2 = false ->
  exists (lines : list string) (body : string),
    make_bulk_lines (VList (map VDict records)) index_name = Ok lines
    /\ nth_error lines (2 * i) = Some (action_line index_name None)
    /\ nth_error lines (2 * i + 1) = Some body
    /\ json_dumps (VDict record) = Ok body
    /\ exists t1 t2,
         json_dumps v1 = Ok t1 /\ json_dumps v2 = Ok t2
         /\ contains body (quoted "product_id" ++ ": " ++ t1)%string
         /\ contains body (quoted "promotion_id" ++ ": " ++ t2)%string.
Proof.
  intros Hbodies Hnth H1 H2 F1 F2.
  destruct (bulk_lines_total records index_name bodies Hbodies)
    as (lines & Hlines).
  assert (Hdoc : nth_error (map VDict records) i = Some (VDict record))
    by exact (map_nth_error VDict i records Hnth).
  destruct (bulk_lines_nth (map VDict records) index_name lines i record
              Hlines Hdoc)
    as (action & body & Haction & Hbody & Hdumps & Hid).
  unfold identity in Hid. rewrite H1, H2, F1, F2 in Hid. subst action.
  exists lines, body.
  split; [unfold make_bulk_lines; cbn [py_iter rbind]; exact Hlines|].
  split; [exact Haction|]. split; [exact Hbody|]. split; [exact Hdumps|].
  destruct (json_dumps_field record body _ _ Hdumps H1) as (t1 & Ht1 & C1).
  destruct (json_dumps_field record body _ _ Hdumps H2) as (t2 & Ht2 & C2).
  exists t1, t2. repeat split; assumption.
Qed.

(** C8: when the lines of a record collection are batched with a positive
    chunk size [c], every batch has an even number of lines, at most [2c],
    and is the encoding of a non-empty run of whole records (records
    [i * c] onwards for batch [i]): no action/body pair is split. *)
Theorem batches_hold_whole_records (docs : list value) (index_name : string)
  (lines : list string) (c : Z) :
  (0 < c)%Z ->
  make_bulk_lines (VList docs) index_name = Ok lines ->
  forall (i : nat) (batch : list string),
    nth_error (chunked lines c) i = Some batch ->
    Nat.Even (List.length batch)
    /\ (Z.of_nat (List.length batch) <= 2 * c)%Z
    /\ group (Z.to_nat c) i docs <> []
    /\ bulk_lines (group (Z.to_nat c) i docs) index_name = Ok batch.
Proof.
  intros Hc Hlines i batch Hnth.
  unfold make_bulk_lines in Hlines. cbn [py_iter rbind] in Hlines.
  pose proof (bulk_lines_length _ _ _ Hlines) as Hlen.
  rewrite chunked_nth_error in Hnth by exact Hc.
  set (n := Z.to_nat c) in *.
  replace (budget c) with (2 * n) in Hnth by (unfold budget, n; lia).
  destruct (Nat.ltb_spec (i * (2 * n)) (List.length lines)) as [Hlt|];
    [|discriminate].
  injection Hnth as <-.
  assert (Hn : 0 < n) by (unfold n; lia).
  assert (Hgroup : bulk_lines (group n i docs) index_name =
                     Ok (firstn (2 * n) (skipn (i * (2 * n)) lines))).
  { unfold group.
    destruct (bulk_lines_split docs index_name lines (i * n) Hlines)
      as [_ Hskip].
    destruct (bulk_lines_split _ index_name _ n Hskip) as [Hfirst _].
    rewrite Hfirst. do 3 f_equal. lia. }
  repeat split.
  - rewrite length_firstn, length_skipn, Hlen.
    destruct (Nat.le_ge_cases n (List.length docs - i * n)).
    + exists n. lia.
    + exists (List.length docs - i * n). lia.
  - rewrite length_firstn. unfold n. lia.
  - unfold group. intros Hnil.
    apply (f_equal (@List.length value)) in Hnil.
    rewrite length_firstn, length_skipn in Hnil. simpl in Hnil. nia.
  - exact Hgroup.
Qed.

(** ** The Transport and the batch loops *)

Section Runs.

Variable net : network.
Variables es_url api_key : string.
Variable timeout : Z.

Local Abbreviation req batch :=
  (bulk_request es_url api_key batch timeout).
Local Abbreviation sent w batch := (after_post w (req batch)).

Lemma send_result_sent (history : list request) (r : request) :
  is_sent net history r = true ->
  send_result net history r = post_result (net history r).
Proof.
  unfold is_sent, send_result.
  destruct (has_surrogate _); [discriminate|].
  destruct (refuses net history r); [discriminate|].
  cbn [negb andb]. intros H. apply Z.ltb_lt in H.
  destruct (Z.leb_spec (req_timeout r) 0); [lia|reflexivity].
Qed.

Lemma send_result_unsent (history : list request) (r : request) :
  is_sent net history r = false ->
  exists e : exn, send_result net history r = Raise e.
Proof.
  unfold is_sent, send_result.
  destruct (has_surrogate _); [now exists UnicodeEncodeError|].
  destruct (refuses net history r) as [e|]; [now exists e|].
  cbn [negb andb]. intros H. apply Z.ltb_ge in H.
  destruct (Z.leb_spec (req_timeout r) 0); [|lia].
  now exists ValueError.
Qed.

(** One call of [send_bulk]: its result, and the request it adds to the
    world when the request is sent. *)
Lemma send_bulk_run (lines : list string) (w : world) :
  send_bulk net es_url api_key lines timeout w =
    (send_result net (posted w) (req lines),
     if is_sent net (posted w) (req lines) then sent w lines else w).
Proof.
  unfold send_bulk, send_result, is_sent, post_result, after_post.
  cbn [bulk_request req_timeout req_data].
  destruct (has_surrogate _); [reflexivity|].
  destruct (refuses net _ _); [reflexivity|].
  cbn [negb andb].
  destruct (Z.leb_spec timeout 0) as [Hle|Hlt].
  - destruct (Z.ltb_spec 0 timeout); [lia|reflexivity].
  - destruct (Z.ltb_spec 0 timeout); [|lia].
    destruct (answer net _ _) as [e|r]; [reflexivity|].
    destruct (raise_for_status r); [reflexivity|].
    now destruct (json r).
Qed.

(** One turn of the loop. *)
Lemma send_batches_cons (batch : list string) (rest : list (list string))
  (state : Z * list value) (w : world) :
  send_batches net es_url api_key timeout (batch :: rest) state w =
    match (r <- send_result net (posted w) (req batch) ;;
           batch_items r)%result with
    | Ok more =>
        send_batches net es_url api_key timeout rest
          ((fst state + 1)%Z, snd state ++ more) (sent w batch)
    | Raise e =>
        (Raise e,
         if is_sent net (posted w) (req batch) then sent w batch else w)
    end.
Proof.
  cbn [send_batches]. unfold bind at 1. rewrite send_bulk_run.
  destruct (is_sent net (posted w) (req batch)) eqn:Hsent.
  - destruct (send_result _ _ _) as [r|e]; [|reflexivity].
    cbn [rbind]. unfold batch_items, bind, lift.
    destruct (py_get r "items" (VList [])) as [items|e]; [|reflexivity].
    cbn [rbind].
    now destruct (py_iter items).
  - destruct (send_result_unsent _ _ Hsent) as [e ->]. reflexivity.
Qed.

(** The two loops of [import_documents] are one loop over the product
    batches followed by the promotion batches. *)
Lemma send_batches_app (first second : list (list string)) :
  forall (state : Z * list value) (w : world),
    send_batches net es_url api_key timeout (first ++ second) state w =
      match send_batches net es_url api_key timeout first state w with
      | (Ok state', w') =>
          send_batches net es_url api_key timeout second state' w'
      | (Raise e, w') => (Raise e, w')
      end.
Proof.
  induction first as [|batch rest IH]; intros state w; [reflexivity|].
  rewrite <- app_comm_cons, !send_batches_cons.
  destruct (rbind _ _) as [more|e]; [apply IH|reflexivity].
Qed.

(** The requests sent by a loop are those of a prefix of its batches, of
    all of them when the loop ends normally; nothing is printed. *)
Lemma send_batches_posted (batches : list (list string)) :
  forall (state : Z * list value) (w : world),
    let run := send_batches net es_url api_key timeout batches state w in
    stdout (snd run) = stdout w
    /\ exists n : nat,
         n <= List.length batches
         /\ posted (snd run) =
              posted w ++ map (fun b => req b) (firstn n batches)
         /\ match fst run with
            | Ok state' =>
                n = List.length batches
                /\ fst state' = (fst state + Z.of_nat n)%Z
            | Raise _ => True
            end.
Proof.
  induction batches as [|batch rest IH]; intros state w run.
  - split; [reflexivity|]. exists 0. cbn.
    rewrite app_nil_r. repeat split; lia.
  - subst run. rewrite send_batches_cons.
    destruct (rbind _ _) as [more|e].
    + specialize (IH ((fst state + 1)%Z, snd state ++ more) (sent w batch)).
      cbv zeta in IH.
      destruct IH as (Hout & n & Hn & Hposted & Hres).
      split; [exact Hout|].
      exists (S n). split; [simpl; lia|]. split.
      * rewrite Hposted. cbn [sent posted firstn map].
        now rewrite <- app_assoc.
      * destruct (fst (send_batches _ _ _ _ _ _ _)) as [state'|];
          [|exact I].
        cbn [fst] in Hres. simpl. lia.
    + destruct (is_sent net (posted w) (req batch)).
      * split; [reflexivity|].
        exists 1. cbn [sent posted snd fst firstn map List.length].
        repeat split; lia.
      * split; [reflexivity|].
        exists 0. cbn [snd fst firstn map List.length].
        rewrite app_nil_r. repeat split; lia.
Qed.

(** A request that was sent and whose answer is an exception is the last
    request of the loop, and the loop raises that exception. *)
Lemma send_batches_raise_last (batches : list (list string)) :
  forall (state : Z * list value) (w : world) (i : nat) (r : request)
         (e : exn),
    let run := send_batches net es_url api_key timeout batches state w in
    nth_error (posted (snd run)) i = Some r ->
    List.length (posted w) <= i ->
    post_result (net (firstn i (posted (snd run))) r) = Raise e ->
    S i = List.length (posted (snd run)) /\ fst run = Raise e.
Proof.
  induction batches as [|batch rest IH]; intros state w i r e run Hnth Hi He.
  - subst run. cbn in Hnth.
    apply nth_error_None in Hi. congruence.
  - pose proof (send_batches_posted (batch :: rest) state w) as Hp.
    cbv zeta in Hp. fold run in Hp.
    destruct Hp as (_ & n & _ & Hposted & _).
    subst run. rewrite send_batches_cons in *.
    destruct (is_sent net (posted w) (req batch)) eqn:Hsent.
    + rewrite (send_result_sent _ _ Hsent) in *.
      destruct (Nat.eq_dec i (List.length (posted w))) as [->|Hne].
      * (* the request of [batch] itself *)
        assert (Hr : r = req batch /\
                     firstn (List.length (posted w))
                       (posted (snd
                          match (r0 <- post_result
                                         (net (posted w) (req batch)) ;;
                                 batch_items r0)%result with
                          | Ok more =>
                              send_batches net es_url api_key timeout rest
                                ((fst state + 1)%Z, snd state ++ more)
                                (sent w batch)
                          | Raise e0 => (Raise e0, sent w batch)
                          end)) = posted w).
        { rewrite Hposted in Hnth |- *.
          rewrite nth_error_app2 in Hnth by lia.
          rewrite Nat.sub_diag in Hnth.
          rewrite firstn_app, Nat.sub_diag, firstn_all, firstn_O, app_nil_r.
          split; [|reflexivity].
          destruct n as [|n]; cbn in Hnth; [discriminate|congruence]. }
        destruct Hr as [-> Hfirst]. rewrite Hfirst in He.
        rewrite He. cbn [rbind snd fst sent posted].
        rewrite length_app. simpl. split; [lia|reflexivity].
      * destruct (rbind _ _) as [more|e0].
        -- apply (IH _ _ i r e); [exact Hnth| |exact He].
           cbn [sent posted]. rewrite length_app. simpl. lia.
        -- cbn [snd sent posted] in Hnth.
           assert (i < List.length (posted w ++ [req batch]))
             by (apply nth_error_Some; congruence).
           rewrite length_app in *. simpl in *. lia.
    + destruct (send_result_unsent _ _ Hsent) as [e0 He0].
      rewrite He0 in Hnth. cbn [rbind snd] in Hnth.
      apply nth_error_None in Hi. congruence.
Qed.

(** A loop that ends normally got a BatchResult for every batch, and has
    appended their items, in the order of the batches. *)
Lemma send_batches_items (batches : list (list string)) :
  forall (state state' : Z * list value) (w w' : world),
    send_batches net es_url api_key timeout batches state w
      = (Ok state', w') ->
    exists (responses : list value) (itemss : list (list value)),
      answers net (posted w) (map (fun b => req b) batches) = map Ok responses
      /\ mapM batch_items responses = Ok itemss
      /\ snd state' = snd state ++ List.concat itemss.
Proof.
  induction batches as [|batch rest IH]; intros state state' w w' H.
  - cbn in H. injection H as <- <-.
    exists [], []. cbn. now rewrite app_nil_r.
  - rewrite send_batches_cons in H.
    destruct (send_result _ _ _) as [r|] eqn:Hr; [|discriminate].
    cbn [rbind] in H.
    destruct (batch_items r) as [more|] eqn:Hmore; [|discriminate].
    destruct (IH _ _ _ _ H) as (responses & itemss & Hans & Hitems & Hst).
    exists (r :: responses), (more :: itemss).
    cbn [map answers mapM posted after_post] in *.
    rewrite Hr, Hans, Hmore, Hitems. cbn [rbind snd List.concat] in *.
    repeat split. rewrite Hst. now rewrite app_assoc.
Qed.

End Runs.


(** ** The Result Aggregator *)

Lemma item_failed_carries_error (item : value) (failed : bool) :
  item_failed item = Ok failed -> failed = carries_error item.
Proof.
  unfold item_failed, carries_error, py_get.
  destruct item as [| | | | | |d|]; try discriminate.
  cbn [rbind].
  destruct (lookup "index" d) as [[| | | | | |o|]|]; cbn [rbind];
    try discriminate.
  - destruct (lookup "error" o); now intros [= <-].
  - now intros [= <-].
Qed.

Lemma select_failed_filter (items failed : list value) :
  select_failed items = Ok failed ->
  failed = filter carries_error items
  /\ Forall (fun item => item_failed item = Ok (carries_error item)) items.
Proof.
  revert failed.
  induction items as [|item rest IH]; intros failed H; cbn in H.
  - injection H as <-. split; [reflexivity|constructor].
  - destruct (item_failed item) as [keep|] eqn:Hkeep; [|discriminate].
    cbn [rbind] in H.
    destruct (select_failed rest) as [more|]; [|discriminate].
    cbn [rbind] in H. injection H as <-.
    destruct (IH more eq_refl) as [-> Hall].
    pose proof (item_failed_carries_error item keep Hkeep) as ->.
    split; [|constructor; assumption].
    cbn [filter]. now destruct (carries_error item).
Qed.

(** ** The Orchestrator *)

Lemma import_documents_run (net : network) (dataset : value)
  (es_url api_key products_index promotions_index : string)
  (chunk_size timeout : Z) (skip_promotions : bool) (w : world) :
  import_documents net dataset es_url api_key products_index promotions_index
    chunk_size timeout skip_promotions w =
    match encode_collections dataset products_index promotions_index
            skip_promotions with
    | Raise e => (Raise e, w)
    | Ok (product_lines, promotion_lines) =>
        match send_batches net es_url api_key timeout
                (chunked product_lines chunk_size
                   ++ chunked promotion_lines chunk_size) (0%Z, []) w with
        | (Ok state, w') => report net state w'
        | (Raise e, w') => (Raise e, w')
        end
    end.
Proof.
  unfold import_documents, encode_collections.
  unfold bind at 1, lift at 1.
  destruct (py_get dataset "products" (VList [])) as [products|];
    [|reflexivity].
  cbn [rbind]. unfold bind at 1.
  assert (E' : forall (r : result (list string)) (b : bool),
             (if b then lift r else ret [])
             = lift (if b then r else Ok [])).
  { intros r b. now destruct b. }
  destruct (negb skip_promotions).
  - unfold lift at 1.
    destruct (py_get dataset "promotions" (VList [])) as [promotions|];
      [|reflexivity].
    cbn [rbind]. unfold bind at 1, lift at 1.
    destruct (make_bulk_lines products products_index) as [pl|];
      [|reflexivity].
    cbn [rbind]. unfold bind at 1. rewrite E'. unfold lift at 1.
    destruct (if truthy promotions then _ else _) as [ql|]; [|reflexivity].
    cbn [rbind]. rewrite send_batches_app. unfold bind at 1.
    destruct (send_batches _ _ _ _ _ _ w) as [[state|e] w1]; [|reflexivity].
    unfold bind at 1.
    now destruct (send_batches _ _ _ _ _ _ w1) as [[state'|e] w2].
  - unfold ret at 1. unfold bind at 1, lift at 1.
    destruct (make_bulk_lines products products_index) as [pl|];
      [|reflexivity].
    cbn [rbind]. unfold bind at 1. rewrite E'. unfold lift at 1.
    destruct (if truthy (VList []) then _ else _) as [ql|]; [|reflexivity].
    cbn [rbind]. rewrite send_batches_app. unfold bind at 1.
    destruct (send_batches _ _ _ _ _ _ w) as [[state|e] w1]; [|reflexivity].
    unfold bind at 1.
    now destruct (send_batches _ _ _ _ _ _ w1) as [[state'|e] w2].
Qed.

Lemma is_ascii_app (a b : string) :
  is_ascii (a ++ b) = is_ascii a && is_ascii b.
Proof.
  induction a as [|c rest IH]; [reflexivity|].
  cbn [append is_ascii]. now rewrite IH, andb_assoc.
Qed.

Lemma is_ascii_str_of_Z (n : Z) : is_ascii (str_of_Z n) = true.
Proof.
  assert (H : forall d, is_ascii (NilEmpty.string_of_uint d) = true)
    by (induction d; cbn; assumption || reflexivity).
  unfold str_of_Z, NilZero.string_of_int, NilZero.string_of_uint.
  destruct (Z.to_int n) as [[]|[]]; cbn [is_ascii]; try reflexivity;
    apply (H (_ _)).
Qed.

(** An ASCII line is printed, whatever the encoding of the output. *)
Lemma print_ascii (net : network) (line : string) (w : world) :
  is_ascii line = true ->
  print net line w = (Ok tt, mk_world (posted w) (stdout w ++ [line])).
Proof. intros H. unfold print, printable. now rewrite H. Qed.

(** The reporting phase, case by case: the first two lines are ASCII and
    are printed; the sample is printed when the output can encode it. *)
Lemma report_run (net : network) (state : Z * list value) (w : world) :
  report net state w =
    match select_failed (snd state) with
    | Raise e => (Raise e, w)
    | Ok [] =>
        (Ok tt,
         mk_world (posted w)
           (stdout w ++ summary_lines (fst state) [] EmptyString))
    | Ok (item :: more) =>
        let failed := item :: more in
        let w2 :=
          mk_world (posted w)
            (stdout w
               ++ firstn 2 (summary_lines (fst state) failed EmptyString)) in
        match json_dumps_indent (VList (firstn 5 failed)) 2 with
        | Raise e => (Raise e, w2)
        | Ok sample =>
            if printable net sample
            then (Ok tt,
                  mk_world (posted w)
                    (stdout w ++ summary_lines (fst state) failed sample))
            else (Raise UnicodeEncodeError, w2)
        end
    end.
Proof.
  unfold report, bind at 1, lift at 1.
  destruct (select_failed (snd state)) as [failed|e]; [|reflexivity].
  unfold bind at 1. rewrite print_ascii
    by (rewrite !is_ascii_app, is_ascii_str_of_Z; reflexivity).
  destruct failed as [|item more].
  - rewrite print_ascii by reflexivity.
    unfold summary_lines. cbn [posted stdout]. now rewrite <- app_assoc.
  - unfold bind at 1. rewrite print_ascii
      by (rewrite is_ascii_app, is_ascii_str_of_Z; reflexivity).
    unfold bind, lift. cbv zeta.
    unfold summary_lines. cbn [posted stdout firstn].
    rewrite <- !app_assoc. cbn [app].
    destruct (json_dumps_indent _ 2) as [sample|e]; [|reflexivity].
    unfold print. cbn [posted stdout].
    destruct (printable net sample); [|reflexivity].
    now rewrite <- !app_assoc.
Qed.

Lemma report_posted (net : network) (state : Z * list value) (w : world) :
  posted (snd (report net state w)) = posted w.
Proof.
  rewrite report_run.
  destruct (select_failed (snd state)) as [[|item failed]|];
    try reflexivity.
  cbv zeta. destruct (json_dumps_indent _ 2) as [sample|]; [|reflexivity].
  now destruct (printable net sample).
Qed.

Lemma report_summary (net : network) (state : Z * list value)
  (w w' : world) :
  report net state w = (Ok tt, w') ->
  exists (failed : list value) (sample : string),
    select_failed (snd state) = Ok failed
    /\ (failed <> [] ->
        json_dumps_indent (VList (firstn 5 failed)) 2 = Ok sample)
    /\ stdout w' = stdout w ++ summary_lines (fst state) failed sample.
Proof.
  rewrite report_run.
  destruct (select_failed (snd state)) as [[|item failed]|];
    try discriminate.
  - intros [= <-]. exists [], EmptyString.
    split; [reflexivity|]. split; [now intros []|reflexivity].
  - cbv zeta. destruct (json_dumps_indent _ 2) as [sample|] eqn:Hs;
      [|discriminate].
    destruct (printable net sample); [|discriminate].
    intros [= <-]. exists (item :: failed), sample.
    split; [reflexivity|]. split; [intros _; exact Hs|reflexivity].
Qed.

(** A run that ends normally: both collections were encoded, every batch
    was posted and answered, and the summary was printed. *)
Lemma completed_run (net : network) (dataset : value)
  (es_url api_key products_index promotions_index : string)
  (chunk_size timeout : Z) (skip_promotions : bool) (w w' : world) :
  import_documents net dataset es_url api_key products_index promotions_index
    chunk_size timeout skip_promotions w = (Ok tt, w') ->
  exists (product_lines promotion_lines : list string)
         (state : Z * list value) (w1 : world),
    let batches := chunked product_lines chunk_size
                     ++ chunked promotion_lines chunk_size in
    encode_collections dataset products_index promotions_index skip_promotions
      = Ok (product_lines, promotion_lines)
    /\ send_batches net es_url api_key timeout batches (0%Z, []) w
       = (Ok state, w1)
    /\ report net state w1 = (Ok tt, w')
    /\ fst state = Z.of_nat (List.length batches)
    /\ stdout w1 = stdout w
    /\ posted w' = posted w
                    ++ map (fun b => bulk_request es_url api_key b timeout)
                         batches.
Proof.
  intros Hrun. rewrite import_documents_run in Hrun.
  destruct (encode_collections _ _ _ _) as [[pl ql]|]; [|discriminate].
  pose proof (send_batches_posted net es_url api_key timeout
                (chunked pl chunk_size ++ chunked ql chunk_size)
                (0%Z, []) w) as Hp.
  cbv zeta in Hp.
  destruct (send_batches _ _ _ _ _ _ w) as [[state|] w1] eqn:Hloop;
    [|discriminate].
  cbn [fst snd] in Hp. destruct Hp as (Hout & n & _ & Hposted & -> & Hn).
  exists pl, ql, state, w1. cbv zeta.
  repeat split; try assumption.
  pose proof (report_posted net state w1) as Hr.
  rewrite Hrun in Hr. cbn in Hr.
  rewrite Hr, Hposted. now rewrite firstn_all.
Qed.

Lemma mapM_total {A B : Type} (f : A -> result B) (l : list A) :
  Forall (fun x => exists y, f x = Ok y) l -> exists ys, mapM f l = Ok ys.
Proof.
  induction 1 as [|x rest (y & Hy) _ (ys & Hys)]; cbn.
  - now exists [].
  - rewrite Hy, Hys. now exists (y :: ys).
Qed.

(** [json.dumps] accepts every JSON value, with or without [indent]. *)
Lemma encode_total (indent : option nat) (v : value) :
  is_json v = true -> forall level, exists s, encode indent level v = Ok s.
Proof.
  induction v as [|b| | | |l IH|d IH|] using value_nested_ind;
    intros Hv level; try (eexists; reflexivity); try discriminate.
  - destruct b; eexists; reflexivity.
  - destruct l as [|x rest]; [eexists; reflexivity|].
    cbn [encode is_json] in *.
    destruct (mapM_total (encode indent (S level)) (x :: rest)) as (ss & ->).
    + rewrite Forall_forall in *. rewrite forallb_forall in Hv.
      intros y Hy. exact (IH y Hy (Hv y Hy) (S level)).
    + eexists. reflexivity.
  - destruct d as [|kv rest]; [eexists; reflexivity|].
    cbn [encode is_json] in *.
    match goal with
    | |- exists s, rbind (mapM ?f ?l) _ = _ =>
        destruct (mapM_total f l) as (ss & ->)
    end.
    + rewrite Forall_forall in *. rewrite forallb_forall in Hv.
      intros [k y] Hy.
      destruct (IH (k, y) Hy (Hv (k, y) Hy) (S level)) as (t & Ht).
      cbn [snd] in Ht. rewrite Ht. eexists. reflexivity.
    + eexists. reflexivity.
Qed.

Lemma well_shaped_item_failed (item : value) :
  well_shaped_item item = true -> item_failed item = Ok (carries_error item).
Proof.
  unfold well_shaped_item, item_failed, carries_error, py_get.
  destruct item as [| | | | | |d|]; try discriminate.
  cbn [rbind].
  destruct (lookup "index" d) as [[| | | | | |o|]|]; cbn [rbind];
    try discriminate; intros _; [|reflexivity].
  now destruct (lookup "error" o).
Qed.

Lemma select_failed_total (items : list value) :
  Forall (fun item => well_shaped_item item = true /\ is_json item = true)
    items ->
  select_failed items = Ok (filter carries_error items).
Proof.
  induction 1 as [|item rest [Hshape _] _ IH]; [reflexivity|].
  cbn [select_failed filter].
  rewrite (well_shaped_item_failed item Hshape), IH. reflexivity.
Qed.

(** Joining lines with newlines makes no lone surrogate: a newline is
    neither of its two bytes. *)
Lemma has_surrogate_app_lf (a b : string) :
  has_surrogate (a ++ LF ++ b) = has_surrogate a || has_surrogate b.
Proof.
  induction a as [|c rest IH]; [reflexivity|].
  cbn [append has_surrogate]. rewrite IH.
  assert (Htail : surrogate_tail (rest ++ LF ++ b) = surrogate_tail rest)
    by (destruct rest; reflexivity).
  rewrite Htail. now rewrite orb_assoc.
Qed.

Lemma has_surrogate_joined (lines : list string) :
  Forall (fun line => has_surrogate line = false) lines ->
  has_surrogate (String.concat LF lines ++ LF) = false.
Proof.
  induction 1 as [|line rest Hline _ IH]; [reflexivity|].
  destruct rest as [|next rest].
  - cbn [String.concat].
    rewrite (has_surrogate_app_lf line EmptyString
             : has_surrogate (line ++ LF) = _).
    now rewrite Hline.
  - change (String.concat LF (line :: next :: rest) ++ LF)%string
      with ((line ++ LF ++ String.concat LF (next :: rest)) ++ LF)%string.
    rewrite !append_assoc.
    now rewrite has_surrogate_app_lf, Hline, IH.
Qed.

(** The batches of lines without lone surrogate can be encoded. *)
Lemma chunked_encodable (lines : list string) (size : Z)
  (es_url api_key : string) (timeout : Z) :
  Forall (fun line => has_surrogate line = false) lines ->
  Forall (fun batch =>
            has_surrogate
              (req_data (bulk_request es_url api_key batch timeout)) = false)
    (chunked lines size).
Proof.
  intros Hlines. apply Forall_forall. intros batch Hbatch.
  cbn [bulk_request req_data]. apply has_surrogate_joined.
  rewrite Forall_forall in *. intros line Hline. apply Hlines.
  unfold chunked in Hbatch.
  rewrite <- (app_nil_l lines), <- (chunked_loop_concat size lines []).
  apply in_concat. now exists batch.
Qed.

Lemma is_sent_true (net : network) (history : list request) (r : request) :
  has_surrogate (req_data r) = false ->
  refuses net history r = None ->
  (0 < req_timeout r)%Z ->
  is_sent net history r = true.
Proof.
  intros Hs Hr Ht. unfold is_sent. rewrite Hs, Hr.
  now apply Z.ltb_lt in Ht as ->.
Qed.

(** When no line holds a lone surrogate, no request is refused, the timeout
    is positive, every request is answered well, both collections can be
    encoded and the output can encode every text, the run reaches its
    summary. *)
Lemma well_formed_answers_complete (net : network) (dataset : value)
  (es_url api_key products_index promotions_index : string)
  (chunk_size timeout : Z) (skip_promotions : bool) (w : world)
  (product_lines promotion_lines : list string) :
  (forall history r, well_formed_answer (net history r)) ->
  (forall history r, refuses net history r = None) ->
  (forall line, printable net line = true) ->
  (0 < timeout)%Z ->
  encode_collections dataset products_index promotions_index skip_promotions
    = Ok (product_lines, promotion_lines) ->
  Forall (fun line => has_surrogate line = false)
    (product_lines ++ promotion_lines) ->
  exists w', import_documents net dataset es_url api_key products_index
               promotions_index chunk_size timeout skip_promotions w
             = (Ok tt, w').
Proof.
  intros Hnet Hopen Hout Htimeout Henc Hlines.
  rewrite import_documents_run, Henc.
  set (good := fun item => well_shaped_item item = true
                           /\ is_json item = true).
  set (safe := fun batch =>
                 has_surrogate
                   (req_data (bulk_request es_url api_key batch timeout))
                 = false).
  assert (Hloop : forall batches state w0,
             Forall safe batches ->
             Forall good (snd state) ->
             exists state' w1,
               send_batches net es_url api_key timeout batches state w0
                 = (Ok state', w1)
               /\ Forall good (snd state')).
  { induction batches as [|batch rest IH]; intros state w0 Hsafe Hstate.
    - exists state, w0. now split.
    - rewrite send_batches_cons.
      inversion Hsafe as [|? ? Hbatch Hrest]; subst.
      rewrite send_result_sent
        by (apply is_sent_true; [exact Hbatch|apply Hopen|exact Htimeout]).
      destruct (Hnet (posted w0)
                  (bulk_request es_url api_key batch timeout))
        as (r & d & items & -> & Hstatus & Hjson & Hitems & Hgood).
      cbn [post_result]. rewrite Hstatus, Hjson.
      unfold batch_items. cbn [rbind py_get].
      fold (collection d "items"). rewrite Hitems. cbn [py_iter].
      apply IH; [exact Hrest|]. cbn [snd]. apply Forall_app. now split. }
  apply Forall_app in Hlines as [Hpl Hql].
  destruct (Hloop (chunked product_lines chunk_size
                     ++ chunked promotion_lines chunk_size)
              (0%Z, []) w)
    as (state & w1 & -> & Hgood).
  { apply Forall_app. split; now apply chunked_encodable. }
  { constructor. }
  rewrite report_run.
  rewrite (select_failed_total _ Hgood).
  assert (Hfailed : Forall good (filter carries_error (snd state))).
  { rewrite Forall_forall in *. intros item Hin.
    apply filter_In in Hin. now apply Hgood. }
  destruct (filter carries_error (snd state)) as [|item failed] eqn:Hf.
  - eexists. reflexivity.
  - destruct (encode_total (Some 2) (VList (firstn 5 (item :: failed))))
      with (level := 0) as (sample & Hsample).
    + cbn [is_json]. apply forallb_forall. intros x Hx.
      rewrite Forall_forall in Hfailed. apply Hfailed.
      rewrite <- (firstn_skipn 5 (item :: failed)).
      apply in_or_app. now left.
    + cbv zeta. unfold json_dumps_indent. rewrite Hsample, Hout.
      eexists. reflexivity.
Qed.

(** C4, as the code has it: in every run that reaches its summary, the
    items of all BatchResults, of both collections, are gathered in submission order;
    the failed ones are exactly the items that carry a non-empty error
    detail under the [index] key, in that order and with repetitions kept;
    the other items are not reported: the output is the summary, whose
    sample holds failed items only. *)
Theorem failed_items_carry_index_error (net : network) (dataset : value)
  (es_url api_key products_index promotions_index : string)
  (chunk_size timeout : Z) (skip_promotions : bool) (w w' : world) :
  import_documents net dataset es_url api_key products_index promotions_index
    chunk_size timeout skip_promotions w = (Ok tt, w') ->
  exists (responses : list value) (itemss : list (list value))
         (sample : string),
    let requests := skipn (List.length (posted w)) (posted w') in
    let items := List.concat itemss in
    let failed := filter carries_error items in
    answers net (posted w) requests = map Ok responses
    /\ mapM batch_items responses = Ok itemss
    /\ Forall (fun item => item_failed item = Ok (carries_error item)) items
    /\ stdout w' = stdout w
                    ++ summary_lines (Z.of_nat (List.length requests))
                         failed sample
    /\ (failed <> [] ->
        json_dumps_indent (VList (firstn 5 failed)) 2 = Ok sample).
Proof.
  intros Hrun.
  destruct (completed_run _ _ _ _ _ _ _ _ _ _ _ Hrun)
    as (pl & ql & state & w1 & _ & Hloop & Hreport & Hcount & Hout & Hposted).
  destruct (send_batches_items _ _ _ _ _ _ _ _ _ Hloop)
    as (responses & itemss & Hans & Hitems & Hstate).
  destruct (report_summary _ _ _ _ Hreport)
    as (failed & sample & Hsel & Hsample & Hstdout).
  destruct (select_failed_filter _ _ Hsel) as [-> Hall].
  cbn [snd app] in Hstate. rewrite Hstate in *.
  exists responses, itemss, sample. cbv zeta.
  assert (Hreq : skipn (List.length (posted w)) (posted w') =
                 map (fun b => bulk_request es_url api_key b timeout)
                   (chunked pl chunk_size ++ chunked ql chunk_size)).
  { rewrite Hposted, skipn_app, skipn_all, Nat.sub_diag. reflexivity. }
  rewrite Hreq, length_map, <- Hcount, <- Hout.
  repeat split; assumption.
Qed.

(** The requests of any run, finished or not: none if the encoding raises,
    else those of a prefix of the batches. *)
Lemma run_posted (net : network) (dataset : value)
  (es_url api_key products_index promotions_index : string)
  (chunk_size timeout : Z) (skip_promotions : bool) (w : world) :
  let run := import_documents net dataset es_url api_key products_index
               promotions_index chunk_size timeout skip_promotions w in
  match encode_collections dataset products_index promotions_index
          skip_promotions with
  | Raise e => run = (Raise e, w)
  | Ok (product_lines, promotion_lines) =>
      let batches := chunked product_lines chunk_size
                       ++ chunked promotion_lines chunk_size in
      exists n : nat,
        n <= List.length batches
        /\ posted (snd run) =
             posted w
               ++ map (fun b => bulk_request es_url api_key b timeout)
                    (firstn n batches)
  end.
Proof.
  intros run. subst run. rewrite import_documents_run.
  destruct (encode_collections _ _ _ _) as [[pl ql]|]; [|reflexivity].
  cbv zeta.
  pose proof (send_batches_posted net es_url api_key timeout
                (chunked pl chunk_size ++ chunked ql chunk_size)
                (0%Z, []) w) as Hp.
  cbv zeta in Hp.
  destruct (send_batches _ _ _ _ _ _ w) as [[state|] w1].
  - cbn [fst snd] in Hp. destruct Hp as (_ & n & Hn & Hposted & -> & _).
    exists (List.length (chunked pl chunk_size ++ chunked ql chunk_size)).
    split; [lia|]. now rewrite report_posted.
  - cbn [fst snd] in Hp. destruct Hp as (_ & n & Hn & Hposted & _).
    exists n. split; [exact Hn|]. exact Hposted.
Qed.

(** C5, as the code has it: for every batch whose text holds no lone
    surrogate, when the timeout is positive and [requests.post] does not
    refuse the request, [send_bulk] sends exactly one request; its body is
    the lines of the batch, each followed by a newline (joined by newlines
    and ended by one); its content type is [application/x-ndjson] and its
    authorization is the API key under the [ApiKey] scheme. A batch whose
    text holds a lone surrogate is not sent: [data.encode("utf-8")] raises
    [UnicodeEncodeError] before the call. Nothing is printed either way. *)
Theorem send_bulk_posts_one_request (net : network) (es_url api_key : string)
  (lines : list string) (timeout : Z) (w : world) :
  let data := (String.concat LF lines ++ LF)%string in
  let run := send_bulk net es_url api_key lines timeout w in
  stdout (snd run) = stdout w
  /\ (has_surrogate data = false ->
      refuses net (posted w) (bulk_request es_url api_key lines timeout)
        = None ->
      (0 < timeout)%Z ->
      exists req : request,
        posted (snd run) = posted w ++ [req]
        /\ req_data req = data
        /\ req_headers req =
             [("Content-Type", "application/x-ndjson");
              ("Authorization", ("ApiKey " ++ api_key)%string)]
        /\ req_url req = (rstrip_slash es_url ++ "/_bulk")%string
        /\ req_timeout req = timeout)
  /\ (has_surrogate data = true -> run = (Raise UnicodeEncodeError, w)).
Proof.
  intros data run. subst data run. rewrite send_bulk_run.
  split; [|split].
  - now destruct (is_sent _ _ _).
  - intros Hdata Hopen Htimeout.
    rewrite is_sent_true by assumption.
    exists (bulk_request es_url api_key lines timeout).
    repeat split.
  - intros Hdata. unfold send_result, is_sent.
    cbn [bulk_request req_data]. now rewrite Hdata.
Qed.

(** C7: in every run that reaches its summary, the count of batches it
    reports is the number of requests posted during the run, one for each
    batch of the products and then of the promotions; an empty collection
    has no batch, and with [skip_promotions] no promotion is posted, even
    if the dataset has promotions. *)
Theorem batches_sent_counts_posts (net : network) (dataset : pydict)
  (es_url api_key products_index promotions_index : string)
  (chunk_size timeout : Z) (skip_promotions : bool) (w w' : world) :
  import_documents net (VDict dataset) es_url api_key products_index
    promotions_index chunk_size timeout skip_promotions w = (Ok tt, w') ->
  exists (product_lines promotion_lines rest : list string),
    make_bulk_lines (collection dataset "products") products_index
      = Ok product_lines
    /\ (if skip_promotions then promotion_lines = []
        else if truthy (collection dataset "promotions")
             then make_bulk_lines (collection dataset "promotions")
                    promotions_index = Ok promotion_lines
             else promotion_lines = [])
    /\ posted w' =
         posted w
           ++ map (fun b => bulk_request es_url api_key b timeout)
                (chunked product_lines chunk_size)
           ++ map (fun b => bulk_request es_url api_key b timeout)
                (chunked promotion_lines chunk_size)
    /\ stdout w' =
         stdout w
           ++ ("Bulk import finished. Batches sent: "
                 ++ str_of_Z (Z.of_nat (List.length (posted w')
                                          - List.length (posted w)))
                 ++ ".")%string :: rest
    /\ (collection dataset "products" = VList [] ->
        chunked product_lines chunk_size = [])
    /\ (collection dataset "promotions" = VList [] ->
        chunked promotion_lines chunk_size = [])
    /\ (skip_promotions = true ->
        chunked promotion_lines chunk_size = []).
Proof.
  intros Hrun.
  destruct (completed_run _ _ _ _ _ _ _ _ _ _ _ Hrun)
    as (pl & ql & state & w1 & Henc & Hloop & Hreport & Hcount & Hout
        & Hposted).
  destruct (report_summary _ _ _ _ Hreport)
    as (failed & sample & _ & _ & Hstdout).
  unfold encode_collections in Henc. cbn [py_get rbind] in Henc.
  fold (collection dataset "products") in Henc.
  fold (collection dataset "promotions") in Henc.
  assert (H : make_bulk_lines (collection dataset "products") products_index
              = Ok pl
              /\ if skip_promotions then ql = []
                 else if truthy (collection dataset "promotions")
                      then make_bulk_lines (collection dataset "promotions")
                             promotions_index = Ok ql
                      else ql = []).
  { destruct skip_promotions; cbn [negb rbind] in Henc;
      destruct (make_bulk_lines (collection dataset "products") _)
        as [pl'|]; try discriminate; cbn [rbind truthy] in Henc.
    - injection Henc as -> <-. now split.
    - destruct (truthy (collection dataset "promotions")).
      + destruct (make_bulk_lines (collection dataset "promotions") _)
          as [ql'|]; [|discriminate].
        cbn [rbind] in Henc. injection Henc as -> ->. now split.
      + cbn [rbind] in Henc. injection Henc as -> <-. now split. }
  destruct H as [Hpl Hql].
  exists pl, ql.
  exists (match failed with
          | [] => ["All documents indexed without reported errors."]
          | _ :: _ =>
              [("Documents with errors: "
                  ++ str_of_Z (Z.of_nat (List.length failed)))%string;
               sample]
          end).
  split; [exact Hpl|]. split; [exact Hql|].
  split; [rewrite Hposted; now rewrite map_app|].
  split.
  - assert (Hlen : List.length (posted w') - List.length (posted w) =
                    List.length (chunked pl chunk_size
                                   ++ chunked ql chunk_size)).
    { rewrite Hposted, (length_app (posted w)), length_map. lia. }
    rewrite Hlen, Hstdout, Hout, Hcount. reflexivity.
  - split; [|split].
    + intros E. rewrite E in Hpl. cbn in Hpl. now injection Hpl as <-.
    + intros E. rewrite E in Hql. cbn in Hql.
      destruct skip_promotions; now subst ql.
    + intros ->. now subst ql.
Qed.

Lemma transport_failure_raises (o : post_outcome) :
  transport_failure o ->
  exists e : exn,
    post_result o = Raise e
    /\ match o with
       | PostRaises x => e = RequestException x
       | PostReturns r =>
           exists prefix : string, e = SystemExit (prefix ++ text r)
       end.
Proof.
  destruct o as [x|r]; cbn [transport_failure post_result].
  - intros _. now exists (RequestException x).
  - intros Hstatus. unfold raise_for_status.
    destruct (Z.leb_spec 400 (status_code r)); [|lia].
    destruct (Z.ltb_spec (status_code r) 500); cbn [andb].
    + eexists. split; [reflexivity|].
      eexists. rewrite <- !append_assoc. reflexivity.
    + destruct (Z.leb_spec 500 (status_code r)); [|lia].
      destruct (Z.ltb_spec (status_code r) 600); [|lia]. cbn [andb].
      eexists. split; [reflexivity|].
      eexists. rewrite <- !append_assoc. reflexivity.
Qed.

(** C6, as the code has it: if a transport call of a run fails (the
    connection fails, the call times out, or the response has a 4xx or 5xx
    status), that call is the last one of the run: the remaining batches
    are not posted, nothing is printed, the requests posted so far are the
    batches up to the failing one, and the run raises the error of the
    call, whose message ends with the raw response body for an error
    status. *)
Theorem transport_failure_aborts_run (net : network) (dataset : value)
  (es_url api_key products_index promotions_index : string)
  (chunk_size timeout : Z) (skip_promotions : bool) (w : world)
  (i : nat) (r : request) :
  let run := import_documents net dataset es_url api_key products_index
               promotions_index chunk_size timeout skip_promotions w in
  nth_error (posted (snd run)) i = Some r ->
  List.length (posted w) <= i ->
  transport_failure (net (firstn i (posted (snd run))) r) ->
  S i = List.length (posted (snd run))
  /\ stdout (snd run) = stdout w
  /\ (exists product_lines promotion_lines : list string,
        encode_collections dataset products_index promotions_index
          skip_promotions = Ok (product_lines, promotion_lines)
        /\ posted (snd run) =
             posted w
               ++ map (fun b => bulk_request es_url api_key b timeout)
                    (firstn (S i - List.length (posted w))
                       (chunked product_lines chunk_size
                          ++ chunked promotion_lines chunk_size)))
  /\ match net (firstn i (posted (snd run))) r with
     | PostRaises x => fst run = Raise (RequestException x)
     | PostReturns resp =>
         exists prefix : string,
           fst run = Raise (SystemExit (prefix ++ text resp))
     end.
Proof.
  intros run Hnth Hi Hfail.
  destruct (transport_failure_raises _ Hfail) as (e & He & Hshape).
  subst run. rewrite import_documents_run in *.
  destruct (encode_collections _ _ _ _) as [[pl ql]|].
  2:{ cbn [snd] in Hnth. apply nth_error_None in Hi. congruence. }
  set (batches := chunked pl chunk_size ++ chunked ql chunk_size) in *.
  pose proof (send_batches_posted net es_url api_key timeout batches
                (0%Z, []) w) as Hp.
  pose proof (send_batches_raise_last net es_url api_key timeout batches
                (0%Z, []) w i r e) as Hlast.
  cbv zeta in Hp, Hlast.
  destruct (send_batches _ _ _ _ _ _ w) as [[state|e'] w1].
  - rewrite report_posted in Hnth, He.
    destruct (Hlast Hnth Hi He) as [_ Hres]. discriminate.
  - cbn [fst snd] in *.
    destruct (Hlast Hnth Hi He) as [Hlen [= ->]].
    destruct Hp as (Hout & n & Hn & Hposted & _).
    split; [exact Hlen|]. split; [exact Hout|]. split.
    + exists pl, ql. split; [reflexivity|].
      rewrite Hposted. do 3 f_equal.
      rewrite Hposted, length_app, length_map, length_firstn in Hlen. lia.
    + destruct (net _ r) as [x|resp].
      * now subst e.
      * destruct Hshape as (prefix & ->). now exists prefix.
Qed.

Lemma bulk_lines_raises (docs : list value) (index_name : string)
  (doc : value) (e : exn) :
  In doc docs -> json_dumps doc = Raise e ->
  exists e', bulk_lines docs index_name = Raise e'.
Proof.
  intros Hin Hdoc.
  induction docs as [|d rest IH]; [contradiction|].
  cbn [bulk_lines].
  destruct (py_get d "product_id" VNone) as [p|e1]; [|now exists e1].
  cbn [rbind].
  destruct (if truthy p then Ok p else py_get d "promotion_id" VNone)
    as [id|e2]; [|now exists e2].
  cbn [rbind].
  case_result Ha; [|eexists; reflexivity]. cbn [rbind].
  destruct Hin as [->|Hin].
  - rewrite Hdoc. now exists e.
  - destruct (json_dumps d); [|eexists; reflexivity]. cbn [rbind].
    destruct (IH Hin) as (e' & ->). now exists e'.
Qed.

Lemma unencodable_raises (records : value) (index_name : string) :
  unencodable records ->
  truthy records = true
  /\ exists e, make_bulk_lines records index_name = Raise e.
Proof.
  intros (docs & doc & e & -> & Hin & Hdoc).
  split.
  - destruct docs; [contradiction|reflexivity].
  - unfold make_bulk_lines. cbn [py_iter rbind].
    now apply (bulk_lines_raises docs index_name doc e).
Qed.

(** C9: both collections are encoded before the first transport call: a
    record that cannot be serialized, in the products or in the promotions
    that are imported, makes the run raise with no request posted and
    nothing printed; and a run that posts a request has encoded both
    collections in full. *)
Theorem encoding_precedes_transport (net : network) (dataset : pydict)
  (es_url api_key products_index promotions_index : string)
  (chunk_size timeout : Z) (skip_promotions : bool) (w : world) :
  let run := import_documents net (VDict dataset) es_url api_key
               products_index promotions_index chunk_size timeout
               skip_promotions w in
  (unencodable (collection dataset "products")
   \/ (skip_promotions = false
       /\ unencodable (collection dataset "promotions")) ->
   exists e, run = (Raise e, w))
  /\ (posted (snd run) <> posted w ->
      exists product_lines promotion_lines : list string,
        encode_collections (VDict dataset) products_index promotions_index
          skip_promotions = Ok (product_lines, promotion_lines)).
Proof.
  intros run.
  pose proof (run_posted net (VDict dataset) es_url api_key products_index
                promotions_index chunk_size timeout skip_promotions w) as Hp.
  cbv zeta in Hp. fold run in Hp.
  split.
  - intros Hbad.
    assert (Henc : exists e,
               encode_collections (VDict dataset) products_index
                 promotions_index skip_promotions = Raise e).
    { unfold encode_collections. cbn [py_get rbind].
      fold (collection dataset "products").
      fold (collection dataset "promotions").
      destruct Hbad as [Hbad|[-> Hbad]].
      - destruct (unencodable_raises _ products_index Hbad) as (_ & e & ->).
        destruct (negb skip_promotions); cbn [rbind]; now exists e.
      - destruct (unencodable_raises _ promotions_index Hbad)
          as (Ht & e & He).
        cbn [negb rbind].
        destruct (make_bulk_lines (collection dataset "products") _)
          as [pl|e']; cbn [rbind]; [|now exists e'].
        rewrite Ht, He. now exists e. }
    destruct Henc as (e & Henc). rewrite Henc in Hp. now exists e.
  - intros Hchanged.
    destruct (encode_collections _ _ _ _) as [[pl ql]|e].
    + now exists pl, ql.
    + rewrite Hp in Hchanged. now cbn in Hchanged.
Qed.


(** ** The properties on the example runs *)

(** Witness of C3: the four lines of the records [apple], whose identity
    is its [product_id], and [fig], which has none. *)
Lemma make_bulk_lines_record_witness :
  exists actions : list string,
    make_bulk_lines (VList [VDict apple; VDict fig]) "products"
      = Ok (interleave actions [apple_body; fig_body])
    /\ List.length (interleave actions [apple_body; fig_body]) = 4
    /\ Forall2 (fun record action =>
                  match identity record with
                  | Some id =>
                      exists t, json_dumps id = Ok t
                                /\ action = action_line "products" (Some t)
                  | None => action = action_line "products" None
                  end) [apple; fig] actions.
Proof.
  apply (make_bulk_lines_record [apple; fig] "products"
           [apple_body; fig_body]).
  reflexivity.
Defined.

(** Witness of C10: a record whose identity fields are an empty string and
    a zero, between two other records. *)
Lemma falsy_identity_gets_no_id_witness :
  exists (lines : list string) (body : string),
    make_bulk_lines (VList [VDict apple; VDict unnamed; VDict fig])
      "products" = Ok lines
    /\ nth_error lines 2 = Some (action_line "products" None)
    /\ nth_error lines 3 = Some body
    /\ json_dumps (VDict unnamed) = Ok body
    /\ exists t1 t2,
         json_dumps (VStr EmptyString) = Ok t1 /\ json_dumps (VInt 0) = Ok t2
         /\ contains body (quoted "product_id" ++ ": " ++ t1)%string
         /\ contains body (quoted "promotion_id" ++ ": " ++ t2)%string.
Proof.
  apply (falsy_identity_gets_no_id [apple; unnamed; fig] "products"
           [apple_body; unnamed_body; fig_body] 1 unnamed
           (VStr EmptyString) (VInt 0)); reflexivity.
Defined.

(** Witness of C8: the second batch of the three products, two records to
    a batch, is the encoding of the third record. *)
Lemma batches_hold_whole_records_witness :
  nth_error (chunked basket_product_lines 2) 1
    = Some (skipn 4 basket_product_lines)
  /\ Nat.Even (List.length (skipn 4 basket_product_lines))
  /\ bulk_lines [VDict fig] "products" = Ok (skipn 4 basket_product_lines).
Proof.
  assert (Hnth : nth_error (chunked basket_product_lines 2) 1
                 = Some (skipn 4 basket_product_lines)) by reflexivity.
  split; [exact Hnth|].
  destruct (batches_hold_whole_records
              [VDict apple; VDict pear; VDict fig] "products"
              basket_product_lines 2 ltac:(reflexivity) ltac:(reflexivity)
              1 (skipn 4 basket_product_lines) Hnth)
    as (Heven & _ & _ & Hgroup).
  split; [exact Heven|exact Hgroup].
Defined.

(** Witness of C4: one item of the first BatchResult is rejected; it is
    the one failed item of the run. *)
Lemma failed_items_carry_index_error_witness :
  fst (run_basket net_one_rejected 2 false) = Ok tt
  /\ exists (responses : list value) (itemss : list (list value))
            (sample : string),
       answers net_one_rejected []
         (posted (snd (run_basket net_one_rejected 2 false)))
         = map Ok responses
       /\ mapM batch_items responses = Ok itemss
       /\ stdout (snd (run_basket net_one_rejected 2 false)) =
            summary_lines 3 (filter carries_error (List.concat itemss)) sample.
Proof.
  split; [reflexivity|].
  destruct (failed_items_carry_index_error net_one_rejected (VDict basket)
              "http://es:9200/" "KEY" "products" "promotions" 2 60 false
              empty_world (snd (run_basket net_one_rejected 2 false))
              ltac:(reflexivity))
    as (responses & itemss & sample & Hans & Hitems & _ & Hout & _).
  exists responses, itemss, sample.
  split; [exact Hans|]. split; [exact Hitems|exact Hout].
Defined.

(** Witness of C7: with [skip_promotions] the promotion of the basket is
    not posted, and the two product batches are counted. *)
Lemma batches_sent_counts_posts_witness :
  fst (run_basket net_ok 2 true) = Ok tt
  /\ exists (product_lines rest : list string),
       posted (snd (run_basket net_ok 2 true)) =
         map basket_request (chunked product_lines 2)
       /\ stdout (snd (run_basket net_ok 2 true)) =
            "Bulk import finished. Batches sent: 2." :: rest.
Proof.
  split; [reflexivity|].
  destruct (batches_sent_counts_posts net_ok basket
              "http://es:9200/" "KEY" "products" "promotions" 2 60 true
              empty_world (snd (run_basket net_ok 2 true))
              ltac:(reflexivity))
    as (pl & ql & rest & _ & Hql & Hposted & Hout & _).
  cbv iota in Hql. subst ql.
  exists pl, rest.
  split; [|exact Hout].
  rewrite Hposted. cbn [empty_world posted chunked chunked_loop map app].
  now rewrite app_nil_r.
Defined.

(** Witness of C6, as amended: the second of three requests is answered
    with status 503. *)
Lemma transport_failure_aborts_run_witness :
  2 = List.length (posted (snd (run_basket net_fails_second 1 false)))
  /\ stdout (snd (run_basket net_fails_second 1 false)) = []
  /\ exists prefix : string,
       fst (run_basket net_fails_second 1 false) =
         Raise (SystemExit (prefix ++ "upstream is down")).
Proof.
  assert (H1 : nth_error
                 (posted (snd (run_basket net_fails_second 1 false))) 1
               = Some (basket_request
                         (firstn 2 (skipn 2 basket_product_lines))))
    by reflexivity.
  assert (H2 : List.length (posted empty_world) <= 1) by (cbn; lia).
  assert (H3 : transport_failure
                 (net_fails_second
                    (firstn 1 (posted (snd (run_basket net_fails_second 1
                                              false))))
                    (basket_request
                       (firstn 2 (skipn 2 basket_product_lines)))))
    by (vm_compute; split; [discriminate|reflexivity]).
  destruct (transport_failure_aborts_run net_fails_second (VDict basket)
              "http://es:9200/" "KEY" "products" "promotions" 1 60 false
              empty_world 1
              (basket_request (firstn 2 (skipn 2 basket_product_lines)))
              H1 H2 H3)
    as (Hlast & Hout & _ & Hmsg).
  split; [exact Hlast|]. split; [exact Hout|exact Hmsg].
Defined.

(** Witness of C9: the second promotion of [broken_basket] holds bytes. *)
Lemma encoding_precedes_transport_witness :
  exists e,
    import_documents net_ok (VDict broken_basket) "http://es:9200/" "KEY"
      "products" "promotions" 2 60 false empty_world
    = (Raise e, empty_world).
Proof.
  apply (proj1 (encoding_precedes_transport net_ok broken_basket
                  "http://es:9200/" "KEY" "products" "promotions" 2 60 false
                  empty_world)).
  right. split; [reflexivity|].
  exists [VDict promo; VDict broken_promo], (VDict broken_promo), TypeError.
  split; [reflexivity|]. split; [right; left; reflexivity|reflexivity].
Defined.



(** Witness of C5, as amended: the one batch of the three products is
    sent as one request. *)
Lemma send_bulk_posts_one_request_witness :
  exists req : request,
    posted (snd (send_bulk net_ok "http://es:9200/" "KEY"
                   basket_product_lines 60 empty_world))
      = posted empty_world ++ [req]
    /\ req_data req = (String.concat LF basket_product_lines ++ LF)%string
    /\ req_headers req =
         [("Content-Type", "application/x-ndjson");
          ("Authorization", ("ApiKey " ++ "KEY")%string)]
    /\ req_url req = (rstrip_slash "http://es:9200/" ++ "/_bulk")%string
    /\ req_timeout req = 60%Z.
Proof.
  apply (proj1 (proj2 (send_bulk_posts_one_request net_ok "http://es:9200/"
                         "KEY" basket_product_lines 60 empty_world)));
    reflexivity.
Defined.

(** Counterexample to C5 as stated: the Line Encoder accepts a record
    whose name holds a lone surrogate and writes it raw, and the batch of
    its two lines is not sent: [send_bulk] raises [UnicodeEncodeError] and
    makes no request. Nor is the batch of the three products sent with a
    timeout of zero, or when [requests.post] refuses the request. *)
Lemma lone_surrogate_batch_is_not_sent :
  make_bulk_lines (VList [VDict half_emoji]) "products" = Ok half_emoji_lines
  /\ List.length half_emoji_lines = 2
  /\ send_bulk net_ok "http://es:9200/" "KEY" half_emoji_lines 60
       empty_world
     = (Raise UnicodeEncodeError, empty_world)
  /\ send_bulk net_ok "http://es:9200/" "KEY" basket_product_lines 0
       empty_world
     = (Raise ValueError, empty_world)
  /\ send_bulk net_no_scheme "es:9200" "KEY" basket_product_lines 60
       empty_world
     = (Raise (RequestException InvalidURL), empty_world).
Proof. repeat split. Qed.

(** Counterexample to C4 as stated: every batch is answered with status
    200 and two items, the second of which is a text; it carries no error
    detail, and it is not classified at all: the run raises
    [AttributeError] once every batch is sent, and prints no summary. *)
Lemma misshapen_item_is_not_classified :
  answers net_misshapen_item []
    (map basket_request (chunked basket_product_lines 2))
  = map Ok [VDict [("errors", VBool false);
                   ("items", VList [indexed; VStr "created"])];
            VDict [("errors", VBool false);
                   ("items", VList [indexed; VStr "created"])]]
  /\ carries_error (VStr "created") = false
  /\ run_basket net_misshapen_item 2 true
     = (Raise AttributeError,
        mk_world (map basket_request (chunked basket_product_lines 2)) []).
Proof. repeat split. Qed.

(** Counterexample to C6 as stated: the first request is answered with
    status 302, which is not 2xx, and the run goes on: it posts the other
    batches and prints its summary. *)
Lemma redirect_status_does_not_abort :
  net_redirects_first [] (basket_request (firstn 2 basket_product_lines))
    = PostReturns redirect
  /\ ~ (200 <= status_code redirect < 300)%Z
  /\ nth_error (posted (snd (run_basket net_redirects_first 1 true))) 0
     = Some (basket_request (firstn 2 basket_product_lines))
  /\ fst (run_basket net_redirects_first 1 true) = Ok tt
  /\ List.length (posted (snd (run_basket net_redirects_first 1 true))) = 3
  /\ stdout (snd (run_basket net_redirects_first 1 true)) =
       ["Bulk import finished. Batches sent: 3.";
        "All documents indexed without reported errors."].
Proof.
  split; [reflexivity|]. split; [cbn; lia|]. repeat split.
Qed.

(** * Further properties of the code *)

(** ** The Batcher, for any size *)

Lemma chunked_loop_nonempty (size : Z) (lines : list string) :
  forall chunk : list string,
    Forall (fun batch => batch <> []) (chunked_loop size chunk lines).
Proof.
  induction lines as [|line rest IH]; intros chunk; cbn [chunked_loop].
  - destruct chunk; constructor; [discriminate|constructor].
  - destruct (Z.of_nat (List.length (chunk ++ [line])) >=? size * 2)%Z.
    + constructor; [|apply IH]. now destruct chunk.
    + apply IH.
Qed.

(** X1: whatever the size, positive or not, [chunked] yields no empty
    batch, and its batches put end to end are its input. *)
Theorem chunked_keeps_every_line (size : Z) (lines : list string) :
  Forall (fun batch => batch <> []) (chunked lines size)
  /\ List.concat (chunked lines size) = lines.
Proof.
  split.
  - apply chunked_loop_nonempty.
  - apply chunked_loop_concat.
Qed.

Lemma ceil_div_double (n c : nat) :
  0 < c -> (2 * n + 2 * c - 1) / (2 * c) = (n + c - 1) / c.
Proof.
  intros Hc.
  pose proof (Nat.div_mod_eq (n + c - 1) c) as E.
  assert (Hc0 : c <> 0) by lia.
  pose proof (Nat.mod_upper_bound (n + c - 1) c Hc0) as B.
  symmetry.
  apply (Nat.div_unique _ _ _ (2 * ((n + c - 1) mod c) + 1)); lia.
Qed.

(** X2: with a positive chunk size [c], a collection of [n] records that
    can be encoded is cut into [ceil(n / c)] batches. *)
Theorem records_to_batches (docs : list value) (index_name : string)
  (lines : list string) (c : Z) :
  (0 < c)%Z ->
  make_bulk_lines (VList docs) index_name = Ok lines ->
  List.length (chunked lines c) =
    (List.length docs + Z.to_nat c - 1) / Z.to_nat c.
Proof.
  intros Hc Hlines.
  unfold make_bulk_lines in Hlines. cbn [py_iter rbind] in Hlines.
  rewrite chunked_length by exact Hc.
  rewrite (bulk_lines_length _ _ _ Hlines).
  unfold budget.
  replace (Z.to_nat (c * 2)) with (2 * Z.to_nat c) by lia.
  apply ceil_div_double. lia.
Qed.

(** ** The endpoint of the requests *)

Lemma rstrip_slash_app_slash (u : string) :
  rstrip_slash (u ++ "/") = rstrip_slash u.
Proof.
  induction u as [|c rest IH]; [reflexivity|].
  cbn [append rstrip_slash]. now rewrite IH.
Qed.

Lemma rstrip_slash_no_slash (u : string) :
  ends_with_slash (rstrip_slash u) = false.
Proof.
  induction u as [|c rest IH]; [reflexivity|].
  cbn [rstrip_slash].
  destruct (rstrip_slash rest) as [|a b].
  - destruct (Ascii.eqb c "/") eqn:Hc; [reflexivity|].
    cbn. exact Hc.
  - exact IH.
Qed.

Lemma rstrip_slash_slashes (u : string) :
  exists n : nat, u = (rstrip_slash u ++ repeat_string "/" n)%string.
Proof.
  induction u as [|c rest (n & IH)]; [now exists 0|].
  cbn [rstrip_slash].
  destruct (rstrip_slash rest) as [|a b].
  - cbn [append] in IH.
    destruct (Ascii.eqb_spec c "/") as [->|_].
    + exists (S n). cbn. now rewrite <- IH.
    + exists n. cbn. now rewrite <- IH.
  - exists n. rewrite IH at 1. reflexivity.
Qed.

(** X3: the URL of a request is the given URL without its trailing
    slashes, followed by [/_bulk]; so one more slash at the end of the
    given URL changes nothing in the request. *)
Theorem endpoint_ignores_trailing_slashes (es_url api_key : string)
  (lines : list string) (timeout : Z) :
  exists base : string,
    req_url (bulk_request es_url api_key lines timeout)
      = (base ++ "/_bulk")%string
    /\ ends_with_slash base = false
    /\ (exists n : nat, es_url = (base ++ repeat_string "/" n)%string)
    /\ bulk_request (es_url ++ "/") api_key lines timeout
       = bulk_request es_url api_key lines timeout.
Proof.
  exists (rstrip_slash es_url).
  split; [reflexivity|].
  split; [apply rstrip_slash_no_slash|].
  split; [apply rstrip_slash_slashes|].
  unfold bulk_request. now rewrite rstrip_slash_app_slash.
Qed.

(** ** Newlines: the framing of a request body *)

Lemma has_lf_app (a b : string) :
  has_lf (a ++ b) = has_lf a || has_lf b.
Proof.
  induction a as [|c rest IH]; [reflexivity|].
  cbn [append has_lf]. now rewrite IH, orb_assoc.
Qed.

Lemma has_lf_concat (sep : string) (parts : list string) :
  has_lf sep = false ->
  Forall (fun part => has_lf part = false) parts ->
  has_lf (String.concat sep parts) = false.
Proof.
  intros Hsep. induction 1 as [|part rest Hpart _ IH]; [reflexivity|].
  destruct rest as [|next rest]; [exact Hpart|].
  change (String.concat sep (part :: next :: rest))
    with (part ++ sep ++ String.concat sep (next :: rest))%string.
  now rewrite !has_lf_app, Hpart, Hsep, IH.
Qed.

Lemma escape_char_no_lf (c : ascii) : has_lf (escape_char c) = false.
Proof. destruct c as [[|] [|] [|] [|] [|] [|] [|] [|]]; reflexivity. Qed.

Lemma encode_str_no_lf (s : string) : has_lf (encode_str s) = false.
Proof.
  unfold encode_str, quoted. rewrite !has_lf_app.
  assert (H : has_lf (escape s) = false).
  { induction s as [|c rest IH]; [reflexivity|].
    cbn [escape]. now rewrite has_lf_app, escape_char_no_lf, IH. }
  now rewrite H.
Qed.

Lemma str_of_Z_no_lf (n : Z) : has_lf (str_of_Z n) = false.
Proof.
  assert (H : forall d, has_lf (NilEmpty.string_of_uint d) = false)
    by (induction d; cbn; assumption || reflexivity).
  unfold str_of_Z, NilZero.string_of_int, NilZero.string_of_uint.
  destruct (Z.to_int n) as [[]|[]]; cbn [has_lf]; try reflexivity;
    apply (H (_ _)).
Qed.

Lemma mapM_Ok_Forall {A B : Type} (f : A -> result B) (P : B -> Prop)
  (l : list A) :
  forall ys : list B,
    mapM f l = Ok ys ->
    (forall x y, In x l -> f x = Ok y -> P y) ->
    Forall P ys.
Proof.
  induction l as [|x rest IH]; intros ys Hm HP; cbn in Hm.
  - injection Hm as <-. constructor.
  - destruct (f x) as [y|] eqn:Hy; [|discriminate]. cbn [rbind] in Hm.
    destruct (mapM f rest) as [ys'|]; [|discriminate].
    cbn [rbind] in Hm. injection Hm as <-.
    constructor.
    + apply (HP x y); [now left|exact Hy].
    + apply IH; [reflexivity|].
      intros x' y' Hin. apply HP. now right.
Qed.

(** A line written by [json.dumps] without [indent] is one line. *)
Lemma encode_no_lf (v : value) :
  plain_floats v = true ->
  forall (level : nat) (s : string),
    encode None level v = Ok s -> has_lf s = false.
Proof.
  induction v as [|b|n|r|t|l IH|d IH|] using value_nested_ind;
    intros Hv level s Hs; cbn [encode] in Hs; try discriminate.
  - now injection Hs as <-.
  - destruct b; now injection Hs as <-.
  - injection Hs as <-. apply str_of_Z_no_lf.
  - injection Hs as <-. cbn in Hv. now destruct (has_lf r).
  - injection Hs as <-. apply encode_str_no_lf.
  - destruct l as [|x rest]; [now injection Hs as <-|].
    destruct (mapM _ (x :: rest)) as [parts|] eqn:Hparts; [|discriminate].
    cbn [rbind] in Hs. injection Hs as <-.
    cbn [newline_indent item_separator has_lf Ascii.eqb Bool.eqb orb].
    rewrite has_lf_app, has_lf_concat; [reflexivity|reflexivity|].
    apply (mapM_Ok_Forall _ _ _ _ Hparts).
    intros y t Hy Ht. rewrite Forall_forall in IH.
    cbn [plain_floats] in Hv. rewrite forallb_forall in Hv.
    exact (IH y Hy (Hv y Hy) _ _ Ht).
  - destruct d as [|kv rest]; [now injection Hs as <-|].
    destruct (mapM _ (kv :: rest)) as [parts|] eqn:Hparts; [|discriminate].
    cbn [rbind] in Hs. injection Hs as <-.
    cbn [newline_indent item_separator has_lf Ascii.eqb Bool.eqb orb].
    rewrite has_lf_app, has_lf_concat; [reflexivity|reflexivity|].
    apply (mapM_Ok_Forall _ _ _ _ Hparts).
    intros [k y] t Hy Ht. rewrite Forall_forall in IH.
    cbn [plain_floats] in Hv. rewrite forallb_forall in Hv.
    destruct (encode None (S level) y) as [ty|] eqn:Hty; [|discriminate].
    cbn [rbind] in Ht.
    assert (E : t = (encode_str k ++ ": " ++ ty)%string) by congruence.
    rewrite E, !has_lf_app, encode_str_no_lf.
    specialize (IH (k, y) Hy (Hv (k, y) Hy) _ _ Hty). cbn [snd] in IH.
    now rewrite IH.
Qed.

Lemma py_get_plain (obj default v : value) (k : string) :
  plain_floats obj = true -> plain_floats default = true ->
  py_get obj k default = Ok v -> plain_floats v = true.
Proof.
  intros Hobj Hdef. destruct obj as [| | | | | |d|]; try discriminate.
  cbn [py_get]. intros [= <-].
  destruct (lookup k d) as [x|] eqn:Hk; [|exact Hdef].
  apply lookup_In in Hk. cbn [plain_floats] in Hobj.
  rewrite forallb_forall in Hobj. exact (Hobj (k, x) Hk).
Qed.

Lemma bulk_lines_no_lf (docs : list value) (index_name : string) :
  Forall (fun doc => plain_floats doc = true) docs ->
  forall lines : list string,
    bulk_lines docs index_name = Ok lines ->
    Forall (fun line => has_lf line = false) lines.
Proof.
  induction 1 as [|doc rest Hdoc _ IH]; intros lines H;
    cbn [bulk_lines] in H.
  - injection H as <-. constructor.
  - destruct (py_get doc "product_id" VNone) as [p|] eqn:Hp; [|discriminate].
    cbn [rbind] in H.
    destruct (if truthy p then Ok p else py_get doc "promotion_id" VNone)
      as [id|] eqn:Hid; [|discriminate].
    cbn [rbind] in H.
    assert (Hplain : plain_floats id = true).
    { destruct (truthy p).
      - injection Hid as <-.
        exact (py_get_plain doc VNone p "product_id" Hdoc eq_refl Hp).
      - exact (py_get_plain doc VNone id "promotion_id" Hdoc eq_refl Hid). }
    destruct (json_dumps _) as [a|] eqn:Ha; [|discriminate].
    cbn [rbind] in H.
    destruct (json_dumps doc) as [b|] eqn:Hb; [|discriminate].
    cbn [rbind] in H.
    destruct (bulk_lines rest index_name) as [ls|]; [|discriminate].
    cbn [rbind] in H. injection H as <-.
    constructor; [|constructor; [|now apply IH]].
    + eapply encode_no_lf; [|exact Ha].
      destruct (truthy id); cbn; now rewrite ?Hplain.
    + exact (encode_no_lf doc Hdoc 0 b Hb).
Qed.

(** X4: every line the Line Encoder yields is a single line: it has no raw
    newline, whatever text the records and the index name hold. *)
Theorem encoded_lines_have_no_newline (docs : list value)
  (index_name : string) (lines : list string) :
  Forall (fun doc => plain_floats doc = true) docs ->
  make_bulk_lines (VList docs) index_name = Ok lines ->
  Forall (fun line => has_lf line = false) lines.
Proof.
  intros Hdocs Hlines.
  unfold make_bulk_lines in Hlines. cbn [py_iter rbind] in Hlines.
  exact (bulk_lines_no_lf docs index_name Hdocs lines Hlines).
Qed.

Lemma split_lf_line (line rest : string) :
  has_lf line = false ->
  split_lf (line ++ LF ++ rest) = line :: split_lf rest.
Proof.
  induction line as [|c line IH]; intros Hline; [reflexivity|].
  cbn [has_lf] in Hline. apply orb_false_elim in Hline as [Hc Hline].
  cbn [append split_lf]. rewrite Hc.
  change (line ++ String (ascii_of_nat 10) rest)%string
    with (line ++ LF ++ rest)%string.
  now rewrite (IH Hline).
Qed.

Lemma split_lf_body (lines : list string) :
  lines <> [] ->
  Forall (fun line => has_lf line = false) lines ->
  split_lf (String.concat LF lines ++ LF) = lines ++ [EmptyString].
Proof.
  intros Hne Hlines.
  induction Hlines as [|line rest Hline Hrest IH]; [congruence|].
  destruct rest as [|next rest].
  - cbn [String.concat app].
    replace (line ++ LF)%string with (line ++ LF ++ EmptyString)%string
      by reflexivity.
    now rewrite split_lf_line.
  - change (String.concat LF (line :: next :: rest))
      with (line ++ LF ++ String.concat LF (next :: rest))%string.
    rewrite !append_assoc, split_lf_line by exact Hline.
    rewrite IH by discriminate. reflexivity.
Qed.

(** X5: the body of the request of any batch of encoded lines, for any
    chunk size, splits at its newlines into the lines of the batch followed
    by one empty piece: the lines can be read back from the body. *)
Theorem request_body_splits_into_lines (docs : list value)
  (index_name es_url api_key : string) (lines batch : list string)
  (size timeout : Z) :
  Forall (fun doc => plain_floats doc = true) docs ->
  make_bulk_lines (VList docs) index_name = Ok lines ->
  In batch (chunked lines size) ->
  split_lf (req_data (bulk_request es_url api_key batch timeout))
    = batch ++ [EmptyString].
Proof.
  intros Hdocs Hlines Hbatch.
  unfold make_bulk_lines in Hlines. cbn [py_iter rbind] in Hlines.
  pose proof (bulk_lines_no_lf docs index_name Hdocs lines Hlines) as Hno.
  cbn [bulk_request req_data].
  apply split_lf_body.
  - pose proof (chunked_loop_nonempty size lines []) as Hne.
    rewrite Forall_forall in Hne. exact (Hne batch Hbatch).
  - rewrite Forall_forall in *. intros line Hin. apply Hno.
    assert (E : List.concat (chunked lines size) = lines)
      by apply chunked_loop_concat.
    rewrite <- E. apply in_concat. now exists batch.
Qed.

(** ** What the Line Encoder accepts *)

Lemma mapM_decide {A B : Type} (f : A -> result B) (ok : A -> bool)
  (e : exn) (l : list A) :
  Forall (fun x => if ok x then exists y, f x = Ok y else f x = Raise e) l ->
  if forallb ok l then exists ys, mapM f l = Ok ys else mapM f l = Raise e.
Proof.
  induction 1 as [|x rest Hx _ IH]; cbn [forallb mapM].
  - now exists [].
  - destruct (ok x); cbn [andb].
    + destruct Hx as (y & ->). cbn [rbind].
      destruct (forallb ok rest).
      * destruct IH as (ys & ->). now exists (y :: ys).
      * now rewrite IH.
    + now rewrite Hx.
Qed.

(** [json.dumps] raises on the values that hold bytes, with [TypeError],
    and on no other. *)
Lemma encode_decide (indent : option nat) (v : value) :
  forall level : nat,
    if is_json v then exists s, encode indent level v = Ok s
    else encode indent level v = Raise TypeError.
Proof.
  induction v as [|b| | | |l IH|d IH|] using value_nested_ind;
    intros level; cbn [is_json]; try (eexists; reflexivity);
    try reflexivity.
  - destruct b; eexists; reflexivity.
  - destruct l as [|x rest]; [eexists; reflexivity|].
    cbn [encode].
    pose proof (mapM_decide (encode indent (S level)) is_json TypeError
                  (x :: rest)) as H.
    destruct (forallb is_json (x :: rest)).
    + destruct H as (ss & ->); [|eexists; reflexivity].
      rewrite Forall_forall in *. intros y Hy. exact (IH y Hy (S level)).
    + rewrite H; [reflexivity|].
      rewrite Forall_forall in *. intros y Hy. exact (IH y Hy (S level)).
  - destruct d as [|kv rest]; [eexists; reflexivity|].
    cbn [encode].
    match goal with
    | |- context [mapM ?f (kv :: rest)] =>
        pose proof (mapM_decide f (fun '(_, x) => is_json x) TypeError
                      (kv :: rest)) as H
    end.
    assert (Hall : Forall
                     (fun kx : string * value =>
                        if (let '(_, x) := kx in is_json x)
                        then exists y : string,
                               (let '(k, x) := kx in
                                (s <- encode indent (S level) x ;;
                                 Ok (encode_str k ++ ": " ++ s)%string)%result)
                               = Ok y
                        else (let '(k, x) := kx in
                              (s <- encode indent (S level) x ;;
                               Ok (encode_str k ++ ": " ++ s)%string)%result)
                             = Raise TypeError)
                     (kv :: rest)).
    { rewrite Forall_forall in *. intros [k y] Hy.
      specialize (IH (k, y) Hy (S level)). cbn [snd] in IH.
      destruct (is_json y).
      - destruct IH as (t & ->). eexists. reflexivity.
      - now rewrite IH. }
    specialize (H Hall).
    destruct (forallb _ (kv :: rest)).
    + destruct H as (ss & ->). eexists. reflexivity.
    + now rewrite H.
Qed.

Lemma lookup_is_json (d : pydict) (k : string) :
  is_json (VDict d) = true ->
  is_json (match lookup k d with Some v => v | None => VNone end) = true.
Proof.
  intros Hd. destruct (lookup k d) as [v|] eqn:Hk; [|reflexivity].
  apply lookup_In in Hk. cbn [is_json] in Hd.
  rewrite forallb_forall in Hd. exact (Hd (k, v) Hk).
Qed.

(** X6: on a collection of mappings the Line Encoder raises nothing but
    [TypeError], and it raises exactly when a record holds a value that is
    not JSON; otherwise it yields two lines for each record. *)
Theorem encoder_accepts_json_records (records : list pydict)
  (index_name : string) :
  match make_bulk_lines (VList (map VDict records)) index_name with
  | Ok lines =>
      forallb (fun record => is_json (VDict record)) records = true
      /\ List.length lines = 2 * List.length records
  | Raise e =>
      e = TypeError
      /\ forallb (fun record => is_json (VDict record)) records = false
  end.
Proof.
  unfold make_bulk_lines. cbn [py_iter rbind].
  induction records as [|record rest IH]; [now split|].
  cbn [map bulk_lines py_get rbind forallb].
  fold (doc_id_of record).
  assert (E : (if truthy
                    match lookup "product_id" record with
                    | Some v => v | None => VNone end
               then Ok match lookup "product_id" record with
                       | Some v => v | None => VNone end
               else Ok match lookup "promotion_id" record with
                       | Some v => v | None => VNone end)
              = Ok (doc_id_of record)).
  { unfold doc_id_of. simpl.
    now destruct (truthy match lookup "product_id" record with
                         | Some v => v | None => VNone end). }
  rewrite E. cbn [rbind].
  set (meta := VDict [("index", VDict _)]).
  pose proof (encode_decide None meta 0) as Hmeta.
  pose proof (encode_decide None (VDict record) 0) as Hbody.
  fold (json_dumps meta) in Hmeta. fold (json_dumps (VDict record)) in Hbody.
  destruct (is_json (VDict record)) eqn:Hrec.
  - assert (Hm : is_json meta = true).
    { unfold meta. destruct (truthy (doc_id_of record)); [|reflexivity].
      cbn. unfold doc_id_of.
      destruct (truthy _);
        now rewrite (lookup_is_json record _ Hrec). }
    rewrite Hm in Hmeta.
    destruct Hmeta as (a & ->). destruct Hbody as (b & ->).
    cbn [rbind andb].
    destruct (bulk_lines (map VDict rest) index_name) as [ls|e];
      cbn [rbind].
    + destruct IH as [-> Hlen]. split; [reflexivity|].
      cbn [List.length]. lia.
    + exact IH.
  - cbn [andb]. rewrite Hbody.
    destruct (is_json meta).
    + destruct Hmeta as (a & ->). now split.
    + rewrite Hmeta. now split.
Qed.

(** ** Collections that are missing, falsy or not iterable *)

Lemma encode_collections_falsy_promotions (dataset : pydict)
  (products_index promotions_index : string) :
  truthy (collection dataset "promotions") = false ->
  encode_collections (VDict dataset) products_index promotions_index false
  = encode_collections (VDict dataset) products_index promotions_index true.
Proof.
  intros Hfalsy.
  unfold encode_collections. cbn [py_get rbind negb].
  fold (collection dataset "products").
  fold (collection dataset "promotions").
  destruct (make_bulk_lines (collection dataset "products") products_index);
    [|reflexivity].
  cbn [rbind]. now rewrite Hfalsy.
Qed.

(** X7: promotions that are missing or falsy in the dataset ([null], [0],
    [false], an empty text, list or mapping) are not imported: the run is
    the same, request for request and line for line, as with
    [skip_promotions]. *)
Theorem falsy_promotions_are_skipped (net : network) (dataset : pydict)
  (es_url api_key products_index promotions_index : string)
  (chunk_size timeout : Z) (w : world) :
  truthy (collection dataset "promotions") = false ->
  import_documents net (VDict dataset) es_url api_key products_index
    promotions_index chunk_size timeout false w
  = import_documents net (VDict dataset) es_url api_key products_index
      promotions_index chunk_size timeout true w.
Proof.
  intros Hfalsy.
  rewrite !import_documents_run.
  now rewrite (encode_collections_falsy_promotions _ _ _ Hfalsy).
Qed.

(** X8: products that cannot be iterated ([null], a number, a boolean) make
    the run raise the [TypeError] of the iteration, with no request posted
    and nothing printed; unlike promotions, they are not skipped when
    falsy. *)
Theorem non_iterable_products_raise (net : network) (dataset : pydict)
  (es_url api_key products_index promotions_index : string)
  (chunk_size timeout : Z) (skip_promotions : bool) (w : world) (e : exn) :
  py_iter (collection dataset "products") = Raise e ->
  e = TypeError
  /\ import_documents net (VDict dataset) es_url api_key products_index
       promotions_index chunk_size timeout skip_promotions w
     = (Raise TypeError, w).
Proof.
  intros Hiter.
  assert (He : e = TypeError).
  { destruct (collection dataset "products"); cbn in Hiter; congruence. }
  subst e. split; [reflexivity|].
  rewrite import_documents_run.
  unfold encode_collections. cbn [py_get rbind].
  fold (collection dataset "products").
  destruct (negb skip_promotions); cbn [rbind];
    unfold make_bulk_lines at 1; now rewrite Hiter.
Qed.

(** ** Runs that raise *)

Lemma post_result_raises (o : post_outcome) (e : exn) :
  post_result o = Raise e ->
  transport_failure o
  \/ exists resp : response,
       o = PostReturns resp
       /\ raise_for_status resp = None
       /\ json resp = None
       /\ e = RequestException JSONDecodeError.
Proof.
  destruct o as [x|resp]; cbn [post_result transport_failure];
    [now left|].
  destruct (raise_for_status resp) as [msg|] eqn:Hstatus.
  - intros _. left. unfold raise_for_status in Hstatus.
    destruct (Z.leb_spec 400 (status_code resp));
      destruct (Z.ltb_spec (status_code resp) 500);
      destruct (Z.leb_spec 500 (status_code resp));
      destruct (Z.ltb_spec (status_code resp) 600);
      cbn [andb] in Hstatus; try discriminate; lia.
  - destruct (json resp) eqn:Hjson; [discriminate|].
    intros [= <-]. right. now exists resp.
Qed.

(** A call on which [send_bulk] raises is the last call of the run; the
    run raises the same exception and prints nothing. *)
Lemma raising_call_is_last (net : network) (dataset : value)
  (es_url api_key products_index promotions_index : string)
  (chunk_size timeout : Z) (skip_promotions : bool) (w : world)
  (i : nat) (r : request) (e : exn) :
  let run := import_documents net dataset es_url api_key products_index
               promotions_index chunk_size timeout skip_promotions w in
  nth_error (posted (snd run)) i = Some r ->
  List.length (posted w) <= i ->
  post_result (net (firstn i (posted (snd run))) r) = Raise e ->
  S i = List.length (posted (snd run))
  /\ stdout (snd run) = stdout w
  /\ fst run = Raise e.
Proof.
  intros run Hnth Hi He.
  subst run. rewrite import_documents_run in *.
  destruct (encode_collections _ _ _ _) as [[pl ql]|].
  2:{ cbn [snd] in Hnth. apply nth_error_None in Hi. congruence. }
  set (batches := chunked pl chunk_size ++ chunked ql chunk_size) in *.
  pose proof (send_batches_posted net es_url api_key timeout batches
                (0%Z, []) w) as Hp.
  pose proof (send_batches_raise_last net es_url api_key timeout batches
                (0%Z, []) w i r e) as Hlast.
  cbv zeta in Hp, Hlast.
  destruct (send_batches _ _ _ _ _ _ w) as [[state|e'] w1].
  - rewrite report_posted in Hnth, He.
    destruct (Hlast Hnth Hi He) as [_ Hres]. discriminate.
  - cbn [fst snd] in *.
    destruct (Hlast Hnth Hi He) as [Hlen [= ->]].
    destruct Hp as (Hout & _).
    repeat split; assumption.
Qed.

(** X9: a call on which [send_bulk] raises, be it for a failure of the
    post, an error status, or an answer whose body is not JSON (which is
    raised as a [RequestException]), is the last call of the run: the run
    raises that exception and prints nothing. *)
Theorem failed_call_ends_run (net : network) (dataset : value)
  (es_url api_key products_index promotions_index : string)
  (chunk_size timeout : Z) (skip_promotions : bool) (w : world)
  (i : nat) (r : request) (e : exn) :
  let run := import_documents net dataset es_url api_key products_index
               promotions_index chunk_size timeout skip_promotions w in
  nth_error (posted (snd run)) i = Some r ->
  List.length (posted w) <= i ->
  post_result (net (firstn i (posted (snd run))) r) = Raise e ->
  S i = List.length (posted (snd run))
  /\ stdout (snd run) = stdout w
  /\ fst run = Raise e
  /\ (transport_failure (net (firstn i (posted (snd run))) r)
      \/ (exists resp : response,
            net (firstn i (posted (snd run))) r = PostReturns resp
            /\ raise_for_status resp = None
            /\ json resp = None
            /\ e = RequestException JSONDecodeError)).
Proof.
  intros run Hnth Hi He.
  destruct (raising_call_is_last net dataset es_url api_key products_index
              promotions_index chunk_size timeout skip_promotions w i r e
              Hnth Hi He) as (Hlast & Hout & Hres).
  fold run in Hlast, Hout, Hres.
  split; [exact Hlast|]. split; [exact Hout|]. split; [exact Hres|].
  exact (post_result_raises _ _ He).
Qed.

(** ** Runs whose calls are all answered *)

(** When every batch is answered and the items of every answer can be
    gathered, the loop posts every batch and ends normally. *)
Lemma send_batches_answered (net : network) (es_url api_key : string)
  (timeout : Z) (batches : list (list string)) :
  forall (state : Z * list value) (w : world) (responses : list value)
         (itemss : list (list value)),
    answers net (posted w)
      (map (fun b => bulk_request es_url api_key b timeout) batches)
      = map Ok responses ->
    mapM batch_items responses = Ok itemss ->
    send_batches net es_url api_key timeout batches state w =
      (Ok ((fst state + Z.of_nat (List.length batches))%Z,
           snd state ++ List.concat itemss),
       mk_world
         (posted w
            ++ map (fun b => bulk_request es_url api_key b timeout) batches)
         (stdout w)).
Proof.
  induction batches as [|batch rest IH];
    intros state w responses itemss Hans Hitems.
  - destruct responses; [|discriminate].
    cbn in Hitems. injection Hitems as <-.
    cbn. rewrite Z.add_0_r, !app_nil_r. now destruct state, w.
  - destruct responses as [|r responses]; [discriminate|].
    cbn [map answers] in Hans. injection Hans as Hr Hans.
    cbn [mapM] in Hitems.
    destruct (batch_items r) as [more|] eqn:Hmore; [|discriminate].
    cbn [rbind] in Hitems.
    destruct (mapM batch_items responses) as [others|] eqn:Hothers;
      [|discriminate].
    cbn [rbind] in Hitems. injection Hitems as <-.
    rewrite send_batches_cons, Hr. cbn [rbind]. rewrite Hmore.
    rewrite (IH _ _ responses others); [|exact Hans|exact Hothers].
    cbn [fst snd after_post posted stdout List.length List.concat map].
    rewrite <- !app_assoc. cbn [app].
    do 3 f_equal. lia.
Qed.

Lemma ill_shaped_item_raises (item : value) :
  well_shaped_item item = false -> item_failed item = Raise AttributeError.
Proof.
  unfold well_shaped_item, item_failed, py_get.
  destruct item as [| | | | | |d|]; try reflexivity.
  cbn [rbind].
  now destruct (lookup "index" d) as [[| | | | | |o|]|].
Qed.

Lemma item_failed_raises_AttributeError (item : value) (e : exn) :
  item_failed item = Raise e -> e = AttributeError.
Proof.
  unfold item_failed, py_get.
  destruct item as [| | | | | |d|]; try (now intros [= <-]).
  cbn [rbind].
  destruct (lookup "index" d) as [[| | | | | |o|]|]; cbn [rbind];
    try (now intros [= <-]); discriminate.
Qed.

Lemma select_failed_raises (items : list value) (item : value) :
  In item items -> well_shaped_item item = false ->
  select_failed items = Raise AttributeError.
Proof.
  induction items as [|x rest IH]; intros Hin Hbad; [contradiction|].
  cbn [select_failed].
  destruct (item_failed x) as [keep|e] eqn:Hx.
  - cbn [rbind]. destruct Hin as [->|Hin].
    + rewrite (ill_shaped_item_raises _ Hbad) in Hx. discriminate.
    + now rewrite (IH Hin Hbad).
  - now rewrite (item_failed_raises_AttributeError x e Hx).
Qed.

(** X10: when every batch was answered and one of the items reported is
    not a mapping, or has an [index] entry that is not a mapping, the run
    raises [AttributeError] after it has posted every batch and before it
    prints anything. *)
Theorem ill_shaped_item_aborts_after_posting (net : network) (dataset : value)
  (es_url api_key products_index promotions_index : string)
  (chunk_size timeout : Z) (skip_promotions : bool) (w : world)
  (product_lines promotion_lines : list string)
  (responses : list value) (itemss : list (list value)) (item : value) :
  let requests :=
    map (fun b => bulk_request es_url api_key b timeout)
      (chunked product_lines chunk_size
         ++ chunked promotion_lines chunk_size) in
  encode_collections dataset products_index promotions_index skip_promotions
    = Ok (product_lines, promotion_lines) ->
  answers net (posted w) requests = map Ok responses ->
  mapM batch_items responses = Ok itemss ->
  In item (List.concat itemss) ->
  well_shaped_item item = false ->
  import_documents net dataset es_url api_key products_index
    promotions_index chunk_size timeout skip_promotions w
  = (Raise AttributeError, mk_world (posted w ++ requests) (stdout w)).
Proof.
  intros requests Henc Hans Hitems Hin Hbad.
  rewrite import_documents_run, Henc.
  rewrite (send_batches_answered _ _ _ _ _ _ _ responses itemss Hans Hitems).
  unfold report, bind, lift. cbn [snd app].
  now rewrite (select_failed_raises _ item Hin Hbad).
Qed.

(** X11: an answer without items, or with an empty list of them, counts
    as no error: when no line holds a lone surrogate, the timeout is
    positive, no request is refused and every answer is such a mapping,
    the run sends every batch and prints the count of batches and that all
    documents were indexed. *)
Theorem answers_without_items_report_no_error (net : network)
  (dataset : value)
  (es_url api_key products_index promotions_index : string)
  (chunk_size timeout : Z) (skip_promotions : bool) (w : world)
  (product_lines promotion_lines : list string) :
  let batches := chunked product_lines chunk_size
                   ++ chunked promotion_lines chunk_size in
  (forall history r, exists (resp : response) (d : pydict),
      net history r = PostReturns resp
      /\ raise_for_status resp = None
      /\ json resp = Some (VDict d)
      /\ collection d "items" = VList []) ->
  (forall history r, refuses net history r = None) ->
  (0 < timeout)%Z ->
  encode_collections dataset products_index promotions_index skip_promotions
    = Ok (product_lines, promotion_lines) ->
  Forall (fun line => has_surrogate line = false)
    (product_lines ++ promotion_lines) ->
  import_documents net dataset es_url api_key products_index
    promotions_index chunk_size timeout skip_promotions w
  = (Ok tt,
     mk_world
       (posted w
          ++ map (fun b => bulk_request es_url api_key b timeout) batches)
       (stdout w
          ++ [("Bulk import finished. Batches sent: "
                 ++ str_of_Z (Z.of_nat (List.length batches)) ++ ".")%string;
              "All documents indexed without reported errors."])).
Proof.
  intros batches Hnet Hopen Htimeout Henc Hlines.
  rewrite import_documents_run, Henc. fold batches.
  assert (Hans : forall bs history,
             Forall (fun b =>
                       has_surrogate
                         (req_data (bulk_request es_url api_key b timeout))
                       = false) bs ->
             exists responses,
               answers net history
                 (map (fun b => bulk_request es_url api_key b timeout) bs)
               = map Ok responses
               /\ mapM batch_items responses
                  = Ok (repeat [] (List.length bs))).
  { induction bs as [|b bs IH]; intros history Hsafe.
    - now exists [].
    - inversion Hsafe as [|? ? Hb Hbs]; subst.
      destruct (Hnet history (bulk_request es_url api_key b timeout))
        as (resp & d & Hr & Hstatus & Hjson & Hd).
      destruct (IH (history ++ [bulk_request es_url api_key b timeout]) Hbs)
        as (responses & Hrest & Hitems).
      exists (VDict d :: responses).
      cbn [answers map List.length repeat].
      rewrite send_result_sent
        by (apply is_sent_true; [exact Hb|apply Hopen|exact Htimeout]).
      rewrite Hr. cbn [post_result]. rewrite Hstatus, Hjson, Hrest.
      split; [reflexivity|].
      rewrite mapM_cons.
      unfold batch_items at 1. cbn [py_get rbind].
      fold (collection d "items"). rewrite Hd. cbn [py_iter rbind].
      now rewrite Hitems. }
  apply Forall_app in Hlines as [Hpl Hql].
  destruct (Hans batches (posted w)) as (responses & Hresp & Hitems).
  { apply Forall_app. split; now apply chunked_encodable. }
  rewrite (send_batches_answered _ _ _ _ _ _ _ responses _ Hresp Hitems).
  assert (Hnone : forall n, List.concat (repeat (@nil value) n) = [])
    by (induction n; [reflexivity|assumption]).
  rewrite Hnone, report_run. cbn [fst snd app select_failed posted stdout].
  unfold summary_lines. now rewrite Z.add_0_l.
Qed.

(** ** What a run prints *)





Lemma report_grows (net : network) (state : Z * list value) (w : world) :
  exists lines : list string,
    stdout (snd (report net state w)) = stdout w ++ lines
    /\ List.length lines <= 3.
Proof.
  rewrite report_run.
  destruct (select_failed (snd state)) as [[|item failed]|].
  - eexists. split; [reflexivity|simpl; lia].
  - cbv zeta. destruct (json_dumps_indent _ 2) as [sample|].
    + destruct (printable net sample); cbn [snd stdout];
        (eexists; split; [reflexivity|simpl; lia]).
    + eexists. split; [reflexivity|simpl; lia].
  - exists []. rewrite app_nil_r. split; [reflexivity|simpl; lia].
Qed.

(** X13: a run only adds to the world: what was posted and printed before
    it is still there, in the same order, followed by the requests of the
    run and by at most three printed texts. *)
Theorem run_only_adds (net : network) (dataset : value)
  (es_url api_key products_index promotions_index : string)
  (chunk_size timeout : Z) (skip_promotions : bool) (w : world) :
  let run := import_documents net dataset es_url api_key products_index
               promotions_index chunk_size timeout skip_promotions w in
  exists (requests : list request) (lines : list string),
    posted (snd run) = posted w ++ requests
    /\ stdout (snd run) = stdout w ++ lines
    /\ List.length lines <= 3.
Proof.
  intros run. subst run. rewrite import_documents_run.
  destruct (encode_collections _ _ _ _) as [[pl ql]|].
  2:{ exists [], []. rewrite !app_nil_r.
      split; [reflexivity|]. split; [reflexivity|simpl; lia]. }
  pose proof (send_batches_posted net es_url api_key timeout
                (chunked pl chunk_size ++ chunked ql chunk_size)
                (0%Z, []) w) as Hp.
  cbv zeta in Hp.
  destruct (send_batches _ _ _ _ _ _ w) as [[state|e'] w1];
    cbn [fst snd] in Hp; destruct Hp as (Hout & n & _ & Hposted & _).
  - destruct (report_grows net state w1) as (lines & Hlines & Hlen).
    eexists. exists lines.
    rewrite report_posted, Hposted, Hlines, Hout.
    split; [reflexivity|]. split; [reflexivity|exact Hlen].
  - exists (map (fun b => bulk_request es_url api_key b timeout)
              (firstn n (chunked pl chunk_size ++ chunked ql chunk_size))).
    exists []. cbn [snd].
    rewrite Hposted, Hout, app_nil_r.
    split; [reflexivity|]. split; [reflexivity|simpl; lia].
Qed.

(** ** The script *)

Lemma send_batches_at_some (net : network) (es_url api_key : string)
  (timeout : Z) (batches : list (list string)) :
  forall (state : Z * list value) (w : world),
    send_batches_at net (Some es_url) api_key timeout batches state w
    = send_batches net es_url api_key timeout batches state w.
Proof.
  induction batches as [|batch rest IH]; intros state w; [reflexivity|].
  cbn [send_batches_at send_batches send_bulk_at]. unfold bind, lift.
  destruct (send_bulk net es_url api_key batch timeout w) as [[r|e] w1];
    [|reflexivity].
  destruct (py_get r "items" (VList [])) as [items|]; [|reflexivity].
  destruct (py_iter items) as [more|]; [apply IH|reflexivity].
Qed.

Lemma send_batches_at_none (net : network) (api_key : string) (timeout : Z)
  (batches : list (list string)) (state : Z * list value) (w : world) :
  send_batches_at net None api_key timeout batches state w =
    match batches with
    | [] => (Ok state, w)
    | _ :: _ => (Raise AttributeError, w)
    end.
Proof. now destruct batches. Qed.

Lemma import_documents_at_run (net : network) (dataset : value)
  (es_url : option string)
  (api_key products_index promotions_index : string)
  (chunk_size timeout : Z) (skip_promotions : bool) (w : world) :
  import_documents_at net dataset es_url api_key products_index
    promotions_index chunk_size timeout skip_promotions w =
    match encode_collections dataset products_index promotions_index
            skip_promotions with
    | Raise e => (Raise e, w)
    | Ok (product_lines, promotion_lines) =>
        match send_batches_at net es_url api_key timeout
                (chunked product_lines chunk_size) (0%Z, []) w with
        | (Ok state, w1) =>
            match send_batches_at net es_url api_key timeout
                    (chunked promotion_lines chunk_size) state w1 with
            | (Ok state', w2) => report net state' w2
            | (Raise e, w2) => (Raise e, w2)
            end
        | (Raise e, w1) => (Raise e, w1)
        end
    end.
Proof.
  unfold import_documents_at, encode_collections.
  unfold bind at 1, lift at 1.
  destruct (py_get dataset "products" (VList [])) as [products|];
    [|reflexivity].
  cbn [rbind]. unfold bind at 1.
  assert (E' : forall (r : result (list string)) (b : bool),
             (if b then lift r else ret [])
             = lift (if b then r else Ok [])).
  { intros r b. now destruct b. }
  destruct (negb skip_promotions).
  - unfold lift at 1.
    destruct (py_get dataset "promotions" (VList [])) as [promotions|];
      [|reflexivity].
    cbn [rbind]. unfold bind at 1, lift at 1.
    destruct (make_bulk_lines products products_index) as [pl|];
      [|reflexivity].
    cbn [rbind]. unfold bind at 1. rewrite E'. unfold lift at 1.
    destruct (if truthy promotions then _ else _) as [ql|]; [|reflexivity].
    cbn [rbind]. unfold bind at 1.
    destruct (send_batches_at _ _ _ _ _ _ w) as [[state|e] w1];
      [|reflexivity].
    unfold bind at 1.
    now destruct (send_batches_at _ _ _ _ _ _ w1) as [[state'|e] w2].
  - unfold ret at 1. unfold bind at 1, lift at 1.
    destruct (make_bulk_lines products products_index) as [pl|];
      [|reflexivity].
    cbn [rbind]. unfold bind at 1. rewrite E'. unfold lift at 1.
    destruct (if truthy (VList []) then _ else _) as [ql|]; [|reflexivity].
    cbn [rbind]. unfold bind at 1.
    destruct (send_batches_at _ _ _ _ _ _ w) as [[state|e] w1];
      [|reflexivity].
    unfold bind at 1.
    now destruct (send_batches_at _ _ _ _ _ _ w1) as [[state'|e] w2].
Qed.

(** With a URL, [main] runs the import as the properties above have it. *)
Lemma import_documents_at_some (net : network) (dataset : value)
  (es_url api_key products_index promotions_index : string)
  (chunk_size timeout : Z) (skip_promotions : bool) (w : world) :
  import_documents_at net dataset (Some es_url) api_key products_index
    promotions_index chunk_size timeout skip_promotions w
  = import_documents net dataset es_url api_key products_index
      promotions_index chunk_size timeout skip_promotions w.
Proof.
  rewrite import_documents_at_run, import_documents_run.
  destruct (encode_collections _ _ _ _) as [[pl ql]|]; [|reflexivity].
  rewrite send_batches_app, send_batches_at_some.
  destruct (send_batches _ _ _ _ _ _ w) as [[state|e] w1]; [|reflexivity].
  rewrite send_batches_at_some.
  now destruct (send_batches _ _ _ _ _ _ w1) as [[state'|e] w2].
Qed.

Lemma chunked_nil_iff (lines : list string) (size : Z) :
  chunked lines size = [] <-> lines = [].
Proof.
  split.
  - intros H. pose proof (chunked_loop_concat size lines []) as E.
    fold (chunked lines size) in E. rewrite H in E. now cbn in E.
  - now intros ->.
Qed.

(** X14: without a URL ([args.es_url] is [None]) nothing is checked
    beforehand: when there is a line to send, the run raises
    [AttributeError] at the first batch, with no request posted and
    nothing printed; when there is none, it ends normally and reports zero
    batches. *)
Theorem import_without_url (net : network) (dataset : value)
  (api_key products_index promotions_index : string)
  (chunk_size timeout : Z) (skip_promotions : bool) (w : world)
  (product_lines promotion_lines : list string) :
  let run := import_documents_at net dataset None api_key products_index
               promotions_index chunk_size timeout skip_promotions w in
  encode_collections dataset products_index promotions_index skip_promotions
    = Ok (product_lines, promotion_lines) ->
  (product_lines ++ promotion_lines <> [] -> run = (Raise AttributeError, w))
  /\ (product_lines ++ promotion_lines = [] ->
      run = (Ok tt,
             mk_world (posted w)
               (stdout w
                  ++ ["Bulk import finished. Batches sent: 0.";
                      "All documents indexed without reported errors."]))).
Proof.
  intros run Henc. subst run.
  rewrite import_documents_at_run, Henc, !send_batches_at_none.
  split.
  - intros Hne.
    destruct (chunked product_lines chunk_size) as [|b bs] eqn:Hp;
      [|reflexivity].
    apply chunked_nil_iff in Hp. subst product_lines. cbn [app] in Hne.
    destruct (chunked promotion_lines chunk_size) as [|b bs] eqn:Hq;
      [|reflexivity].
    apply chunked_nil_iff in Hq. contradiction.
  - intros Hnil. apply app_eq_nil in Hnil as [-> ->].
    cbn [chunked chunked_loop send_batches_at ret].
    now rewrite report_run.
Qed.

Lemma import_without_url_posts_nothing (net : network) (dataset : value)
  (api_key products_index promotions_index : string)
  (chunk_size timeout : Z) (skip_promotions : bool) (w : world) :
  posted (snd (import_documents_at net dataset None api_key products_index
                 promotions_index chunk_size timeout skip_promotions w))
  = posted w.
Proof.
  rewrite import_documents_at_run.
  destruct (encode_collections _ _ _ _) as [[pl ql]|]; [|reflexivity].
  rewrite !send_batches_at_none.
  destruct (chunked pl chunk_size); [|reflexivity].
  destruct (chunked ql chunk_size); [|reflexivity].
  apply report_posted.
Qed.

Lemma api_key_of_some (args : namespace) (key : string) :
  api_key_of args = Some key ->
  ns_api_key args = Some key /\ key <> EmptyString.
Proof.
  unfold api_key_of.
  destruct (ns_api_key args) as [k|]; [|discriminate].
  destruct (String.eqb_spec k EmptyString); [discriminate|].
  intros [= <-]. now split.
Qed.

(** [main] posts nothing outside the import, and the import posts nothing
    without a URL. *)
Lemma main_posts_in_import (env : environment) (args : namespace)
  (w : world) :
  posted (snd (main env args w)) <> posted w ->
  exists (dataset : value) (key url : string),
    load_dataset env (ns_dataset_path args) = inl dataset
    /\ api_key_of args = Some key
    /\ ns_es_url args = Some url
    /\ main env args w =
         (match fst (import_documents (env_net env) dataset url key
                       (ns_products_index args) (ns_promotions_index args)
                       (ns_chunk_size args) (ns_timeout args)
                       (ns_skip_promotions args) w) with
          | Ok _ => None
          | Raise e => Some (Raised e)
          end,
          snd (import_documents (env_net env) dataset url key
                 (ns_products_index args) (ns_promotions_index args)
                 (ns_chunk_size args) (ns_timeout args)
                 (ns_skip_promotions args) w)).
Proof.
  unfold main.
  destruct (load_dataset env (ns_dataset_path args)) as [dataset|e];
    [|now intros []].
  destruct (api_key_of args) as [key|]; [|now intros []].
  destruct (ns_es_url args) as [url|].
  - intros _. exists dataset, key, url.
    rewrite import_documents_at_some.
    now destruct (import_documents _ _ _ _ _ _ _ _ _ _) as [[u|e] w'].
  - intros Hposted. exfalso. apply Hposted.
    pose proof (import_without_url_posts_nothing (env_net env) dataset key
                  (ns_products_index args) (ns_promotions_index args)
                  (ns_chunk_size args) (ns_timeout args)
                  (ns_skip_promotions args) w) as H.
    now destruct (import_documents_at _ _ _ _ _ _ _ _ _ _) as [[u|e] w'].
Qed.

(** X15: [main] makes no request unless everything before the first call
    went well: the dataset file was read and parsed, the API key is given
    and not empty, a URL is given, and both collections were encoded. *)
Theorem main_posts_after_preflight (env : environment) (args : namespace)
  (w : world) :
  posted (snd (main env args w)) <> posted w ->
  exists (dataset : value) (key url : string)
         (product_lines promotion_lines : list string),
    load_dataset env (ns_dataset_path args) = inl dataset
    /\ ns_api_key args = Some key
    /\ key <> EmptyString
    /\ ns_es_url args = Some url
    /\ encode_collections dataset (ns_products_index args)
         (ns_promotions_index args) (ns_skip_promotions args)
       = Ok (product_lines, promotion_lines).
Proof.
  intros Hposted.
  destruct (main_posts_in_import env args w Hposted)
    as (dataset & key & url & Hload & Hkey & Hurl & Hmain).
  apply api_key_of_some in Hkey as [Hkey Hne].
  rewrite Hmain in Hposted. cbn [snd] in Hposted.
  pose proof (run_posted (env_net env) dataset url key
                (ns_products_index args) (ns_promotions_index args)
                (ns_chunk_size args) (ns_timeout args)
                (ns_skip_promotions args) w) as Hrun.
  cbv zeta in Hrun.
  destruct (encode_collections _ _ _ _) as [[pl ql]|e] eqn:Henc.
  - exists dataset, key, url, pl, ql. repeat split; assumption.
  - rewrite Hrun in Hposted. now cbn in Hposted.
Qed.

Lemma post_result_exn (o : post_outcome) (e : exn) :
  post_result o = Raise e ->
  (exists x, e = RequestException x) \/ (exists msg, e = SystemExit msg).
Proof.
  destruct o as [x|resp]; cbn [post_result].
  - intros [= <-]. left. now exists x.
  - destruct (raise_for_status resp) as [exc|].
    + intros [= <-]. right. eexists. reflexivity.
    + destruct (json resp); [discriminate|].
      intros [= <-]. left. now exists JSONDecodeError.
Qed.

Lemma script_world (env : environment) (args : namespace) (w : world) :
  snd (script env args w) = snd (main env args w).
Proof.
  unfold script.
  now destruct (main env args w) as [[[[| |x| | | |]|]|] w'].
Qed.

(** X16: when a request that the script has sent fails, by an exception
    of [requests], an error status or a body that is not JSON, the script
    ends with a [SystemExit] and its text, not with the exception of
    [requests]; that request is its last, and nothing was printed. An
    exception raised before a request is sent is another matter: the
    [__main__] block turns it into a [SystemExit] only if it is a
    [RequestException]. *)
Theorem script_exits_on_failed_call (env : environment) (args : namespace)
  (w : world) (i : nat) (r : request) (e : exn) :
  let out := script env args w in
  nth_error (posted (snd out)) i = Some r ->
  List.length (posted w) <= i ->
  post_result (env_net env (firstn i (posted (snd out))) r) = Raise e ->
  S i = List.length (posted (snd out))
  /\ stdout (snd out) = stdout w
  /\ exists msg : string,
       exit_text env e = Some msg
       /\ fst out = Some (Raised (SystemExit msg)).
Proof.
  intros out Hnth Hi He. subst out.
  rewrite script_world in *.
  assert (Hposted : posted (snd (main env args w)) <> posted w).
  { intros E. rewrite E in Hnth. apply nth_error_None in Hi. congruence. }
  destruct (main_posts_in_import env args w Hposted)
    as (dataset & key & url & _ & _ & _ & Hmain).
  unfold script. rewrite Hmain in *. cbn [snd] in Hnth, He |- *.
  destruct (raising_call_is_last (env_net env) dataset url key
              (ns_products_index args) (ns_promotions_index args)
              (ns_chunk_size args) (ns_timeout args)
              (ns_skip_promotions args) w i r e Hnth Hi He)
    as (Hlast & Hout & Hres).
  split; [exact Hlast|]. split; [exact Hout|].
  rewrite Hres.
  destruct (post_result_exn _ _ He) as [(x & ->)|(msg & ->)].
  - eexists. split; reflexivity.
  - eexists. split; reflexivity.
Qed.

(** X17: a timeout of zero or less, which [parse_args] accepts, is not
    checked either. When there is a line to send, no line holds a lone
    surrogate and [requests.post] does not refuse the request for another
    reason, the script ends with the [ValueError] of [requests.post], which
    is not a [RequestException] and which the [__main__] block does not
    turn into a [SystemExit]; nothing is sent and nothing is printed. *)
Theorem nonpositive_timeout_ends_script (env : environment)
  (args : namespace) (w : world) (dataset : value) (key url : string)
  (product_lines promotion_lines : list string) :
  load_dataset env (ns_dataset_path args) = inl dataset ->
  api_key_of args = Some key ->
  ns_es_url args = Some url ->
  encode_collections dataset (ns_products_index args)
    (ns_promotions_index args) (ns_skip_promotions args)
    = Ok (product_lines, promotion_lines) ->
  product_lines ++ promotion_lines <> [] ->
  Forall (fun line => has_surrogate line = false)
    (product_lines ++ promotion_lines) ->
  (forall history r, refuses (env_net env) history r = None) ->
  (ns_timeout args <= 0)%Z ->
  script env args w = (Some (Raised ValueError), w).
Proof.
  intros Hload Hkey Hurl Henc Hlines Hsafe Hopen Htimeout.
  unfold script, main. rewrite Hload, Hkey, Hurl.
  rewrite import_documents_at_some, import_documents_run, Henc.
  set (batches := chunked product_lines (ns_chunk_size args)
                    ++ chunked promotion_lines (ns_chunk_size args)).
  assert (Hconcat : List.concat batches = product_lines ++ promotion_lines).
  { unfold batches, chunked.
    now rewrite concat_app, !chunked_loop_concat. }
  assert (Hbatches : Forall
                       (fun batch =>
                          has_surrogate
                            (req_data (bulk_request url key batch
                                         (ns_timeout args))) = false)
                       batches).
  { apply Forall_app in Hsafe as [Hpl Hql].
    apply Forall_app. split; now apply chunked_encodable. }
  destruct batches as [|batch rest]; [cbn in Hconcat; congruence|].
  inversion Hbatches as [|? ? Hbatch _]; subst.
  rewrite send_batches_cons.
  unfold send_result, is_sent.
  rewrite Hbatch, Hopen. cbn [bulk_request req_timeout negb andb].
  destruct (Z.leb_spec (ns_timeout args) 0) as [_|Hpos]; [|lia].
  destruct (Z.ltb_spec 0 (ns_timeout args)) as [Hpos|_]; [lia|].
  reflexivity.
Qed.

(** X18: a batch that is not sent ends the run. When the batches before
    it were answered and their items gathered, and the batch holds a lone
    surrogate, or the timeout is not positive, or [requests.post] refuses
    the request, the run raises the exception of that call; the batches
    before it are sent, this one and those after it are not, and nothing
    is printed. *)
Theorem unsent_batch_ends_run (net : network) (dataset : value)
  (es_url api_key products_index promotions_index : string)
  (chunk_size timeout : Z) (skip_promotions : bool) (w : world)
  (product_lines promotion_lines : list string)
  (before after : list (list string)) (batch : list string)
  (responses : list value) (itemss : list (list value)) :
  let history :=
    posted w
      ++ map (fun b => bulk_request es_url api_key b timeout) before in
  encode_collections dataset products_index promotions_index skip_promotions
    = Ok (product_lines, promotion_lines) ->
  chunked product_lines chunk_size ++ chunked promotion_lines chunk_size
    = before ++ batch :: after ->
  answers net (posted w)
    (map (fun b => bulk_request es_url api_key b timeout) before)
    = map Ok responses ->
  mapM batch_items responses = Ok itemss ->
  is_sent net history (bulk_request es_url api_key batch timeout) = false ->
  exists e : exn,
    send_result net history (bulk_request es_url api_key batch timeout)
      = Raise e
    /\ import_documents net dataset es_url api_key products_index
         promotions_index chunk_size timeout skip_promotions w
       = (Raise e, mk_world history (stdout w)).
Proof.
  intros history Henc Hbatches Hans Hitems Hunsent.
  destruct (send_result_unsent _ _ _ Hunsent) as [e He].
  exists e. split; [exact He|].
  rewrite import_documents_run, Henc, Hbatches, send_batches_app.
  rewrite (send_batches_answered _ _ _ _ _ _ _ responses itemss Hans Hitems).
  rewrite send_batches_cons. cbn [posted]. fold history.
  now rewrite He, Hunsent.
Qed.

(** ** The further properties on the example runs *)

(** Witness of X2: three products, two to a batch, make two batches. *)
Lemma records_to_batches_witness :
  List.length (chunked basket_product_lines 2) =
    (List.length [VDict apple; VDict pear; VDict fig] + Z.to_nat 2 - 1)
      / Z.to_nat 2.
Proof.
  apply (records_to_batches [VDict apple; VDict pear; VDict fig] "products"
           basket_product_lines 2); reflexivity.
Defined.

(** Witness of X4: a name with a newline in it is written on one line. *)
Lemma encoded_lines_have_no_newline_witness :
  has_lf ("Two" ++ LF ++ "lines") = true
  /\ Forall (fun line => has_lf line = false) two_liner_lines.
Proof.
  split; [reflexivity|].
  apply (encoded_lines_have_no_newline [VDict two_liner; VDict fig]
           "products" two_liner_lines).
  - repeat constructor.
  - reflexivity.
Defined.

(** Witness of X5: the body of the one batch of those two records. *)
Lemma request_body_splits_into_lines_witness :
  split_lf (req_data (basket_request two_liner_lines))
    = two_liner_lines ++ [EmptyString].
Proof.
  apply (request_body_splits_into_lines [VDict two_liner; VDict fig]
           "products" "http://es:9200/" "KEY" two_liner_lines
           two_liner_lines 2 60).
  - repeat constructor.
  - reflexivity.
  - left. reflexivity.
Defined.

(** Witness of X7: promotions that are [null]. *)
Lemma falsy_promotions_are_skipped_witness :
  import_documents net_ok (VDict basket_null_promotions) "http://es:9200/"
    "KEY" "products" "promotions" 2 60 false empty_world
  = import_documents net_ok (VDict basket_null_promotions) "http://es:9200/"
      "KEY" "products" "promotions" 2 60 true empty_world.
Proof.
  apply (falsy_promotions_are_skipped net_ok basket_null_promotions).
  reflexivity.
Defined.

(** Witness of X8: products that are [null]. *)
Lemma non_iterable_products_raise_witness :
  import_documents net_ok (VDict basket_null_products) "http://es:9200/"
    "KEY" "products" "promotions" 2 60 false empty_world
  = (Raise TypeError, empty_world).
Proof.
  apply (proj2 (non_iterable_products_raise net_ok basket_null_products
                  "http://es:9200/" "KEY" "products" "promotions" 2 60
                  false empty_world TypeError eq_refl)).
Defined.

(** Witness of X9: the second answer has status 200 and a body that is not
    JSON. *)
Lemma failed_call_ends_run_witness :
  2 = List.length (posted (snd (run_basket net_not_json_second 1 false)))
  /\ stdout (snd (run_basket net_not_json_second 1 false)) = []
  /\ fst (run_basket net_not_json_second 1 false)
     = Raise (RequestException JSONDecodeError).
Proof.
  assert (H1 : nth_error
                 (posted (snd (run_basket net_not_json_second 1 false))) 1
               = Some (basket_request
                         (firstn 2 (skipn 2 basket_product_lines))))
    by reflexivity.
  assert (H2 : List.length (posted empty_world) <= 1) by (cbn; lia).
  assert (H3 : post_result
                 (net_not_json_second
                    (firstn 1 (posted (snd (run_basket net_not_json_second
                                              1 false))))
                    (basket_request
                       (firstn 2 (skipn 2 basket_product_lines))))
               = Raise (RequestException JSONDecodeError))
    by reflexivity.
  destruct (failed_call_ends_run net_not_json_second (VDict basket)
              "http://es:9200/" "KEY" "products" "promotions" 1 60 false
              empty_world 1
              (basket_request (firstn 2 (skipn 2 basket_product_lines)))
              (RequestException JSONDecodeError) H1 H2 H3)
    as (Hlast & Hout & Hres & _).
  split; [exact Hlast|]. split; [exact Hout|exact Hres].
Defined.

(** Witness of X10: every answer holds an item that is a text. *)
Lemma ill_shaped_item_aborts_after_posting_witness :
  run_basket net_misshapen_item 2 true
  = (Raise AttributeError,
     mk_world
       (posted empty_world
          ++ map basket_request
               (chunked basket_product_lines 2 ++ chunked [] 2))
       (stdout empty_world)).
Proof.
  apply (ill_shaped_item_aborts_after_posting net_misshapen_item
           (VDict basket) "http://es:9200/" "KEY" "products" "promotions"
           2 60 true empty_world basket_product_lines []
           [VDict [("errors", VBool false);
                   ("items", VList [indexed; VStr "created"])];
            VDict [("errors", VBool false);
                   ("items", VList [indexed; VStr "created"])]]
           [[indexed; VStr "created"]; [indexed; VStr "created"]]
           (VStr "created")).
  - reflexivity.
  - reflexivity.
  - reflexivity.
  - right. left. reflexivity.
  - reflexivity.
Defined.

(** Witness of X11: every answer is an empty mapping. *)
Lemma answers_without_items_report_no_error_witness :
  run_basket net_no_items 2 true
  = (Ok tt,
     mk_world
       (posted empty_world
          ++ map basket_request
               (chunked basket_product_lines 2 ++ chunked [] 2))
       (stdout empty_world
          ++ [("Bulk import finished. Batches sent: "
                 ++ str_of_Z
                      (Z.of_nat
                         (List.length
                            (chunked basket_product_lines 2
                               ++ chunked [] 2)))
                 ++ ".")%string;
              "All documents indexed without reported errors."])).
Proof.
  apply (answers_without_items_report_no_error net_no_items (VDict basket)
           "http://es:9200/" "KEY" "products" "promotions" 2 60 true
           empty_world basket_product_lines []).
  - intros history r. eexists. exists []. repeat split.
  - reflexivity.
  - reflexivity.
  - reflexivity.
  - vm_compute. repeat constructor.
Defined.


(** Witness of X14: the basket without a URL. *)
Lemma import_without_url_witness :
  import_documents_at net_ok (VDict basket) None "KEY" "products"
    "promotions" 2 60 true empty_world
  = (Raise AttributeError, empty_world).
Proof.
  apply (proj1 (import_without_url net_ok (VDict basket) "KEY" "products"
                  "promotions" 2 60 true empty_world basket_product_lines []
                  eq_refl)).
  discriminate.
Defined.

(** Witness of X15: the script posts the basket. *)
Lemma main_posts_after_preflight_witness :
  exists (dataset : value) (key url : string)
         (product_lines promotion_lines : list string),
    load_dataset (example_env net_ok) (ns_dataset_path example_args)
      = inl dataset
    /\ ns_api_key example_args = Some key
    /\ key <> EmptyString
    /\ ns_es_url example_args = Some url
    /\ encode_collections dataset (ns_products_index example_args)
         (ns_promotions_index example_args)
         (ns_skip_promotions example_args)
       = Ok (product_lines, promotion_lines).
Proof.
  apply (main_posts_after_preflight (example_env net_ok) example_args
           empty_world).
  discriminate.
Defined.

(** Witness of X16: the second request times out. *)
Lemma script_exits_on_failed_call_witness :
  exists msg : string,
    exit_text (example_env net_times_out_second)
      (RequestException Timeout) = Some msg
    /\ fst (script (example_env net_times_out_second) example_args
              empty_world)
       = Some (Raised (SystemExit msg)).
Proof.
  assert (H1 : nth_error
                 (posted (snd (script (example_env net_times_out_second)
                                 example_args empty_world))) 1
               = Some (basket_request
                         (firstn 2 (skipn 2 basket_product_lines))))
    by reflexivity.
  assert (H2 : List.length (posted empty_world) <= 1) by (cbn; lia).
  assert (H3 : post_result
                 (env_net (example_env net_times_out_second)
                    (firstn 1
                       (posted (snd (script
                                       (example_env net_times_out_second)
                                       example_args empty_world))))
                    (basket_request
                       (firstn 2 (skipn 2 basket_product_lines))))
               = Raise (RequestException Timeout))
    by reflexivity.
  destruct (script_exits_on_failed_call (example_env net_times_out_second)
              example_args empty_world 1
              (basket_request (firstn 2 (skipn 2 basket_product_lines)))
              (RequestException Timeout) H1 H2 H3)
    as (_ & _ & Hexit).
  exact Hexit.
Defined.

(** Witness of X17: the script on the basket with [--timeout 0]. *)
Lemma nonpositive_timeout_ends_script_witness :
  script (example_env net_ok) example_args_no_timeout empty_world
  = (Some (Raised ValueError), empty_world).
Proof.
  apply (nonpositive_timeout_ends_script (example_env net_ok)
           example_args_no_timeout empty_world (VDict basket) "KEY"
           "http://es:9200/" basket_product_lines basket_promotion_lines).
  - reflexivity.
  - reflexivity.
  - reflexivity.
  - reflexivity.
  - discriminate.
  - vm_compute. repeat constructor.
  - reflexivity.
  - cbn. lia.
Defined.

(** Witness of X18: of two products sent one to a batch, the second holds
    a lone surrogate: the first is sent and the run raises at the second. *)
Lemma unsent_batch_ends_run_witness :
  exists e : exn,
    send_result net_ok [basket_request (firstn 2 basket_product_lines)]
      (basket_request half_emoji_lines) = Raise e
    /\ import_documents net_ok (VDict basket_half_emoji) "http://es:9200/"
         "KEY" "products" "promotions" 1 60 true empty_world
       = (Raise e,
          mk_world [basket_request (firstn 2 basket_product_lines)] []).
Proof.
  apply (unsent_batch_ends_run net_ok (VDict basket_half_emoji)
           "http://es:9200/" "KEY" "products" "promotions" 1 60 true
           empty_world
           (firstn 2 basket_product_lines ++ half_emoji_lines) []
           [firstn 2 basket_product_lines] [] half_emoji_lines
           [VDict [("errors", VBool false);
                   ("items", VList [indexed; indexed])]]
           [[indexed; indexed]]); reflexivity.
Defined.
